(** * EnergyConsumptionApp: a shallow embedding of [EnergyConsumptionApp.py]

    The program is a Streamlit page: it loads two fitted regression models
    and a list of feature names, reads a form, builds a one-row
    [pandas.DataFrame], reorders its columns after the loaded feature
    names, asks both models for a prediction and renders the outcome.

    The embedding keeps the shape of the source:
    - Python exceptions are values of [Py.exn]; code that may raise returns
      [Py.exn + A];
    - the one-row DataFrame is an ordered association list of column
      labels and cells (order and repeated labels matter to pandas);
    - floats are binary64 values (the kernel's primitive floats), integers
      are [Z];
    - [self], and the sequence of calls made to Streamlit, joblib and the
      models, are threaded through a small state-and-exception monad. *)

From Stdlib Require Import ZArith List String Bool Lia PrimFloat.
From Stdlib Require Import Permutation.
Import ListNotations.

Set Warnings "-inexact-float".

#[local] Open Scope string_scope.
#[local] Open Scope list_scope.
#[local] Open Scope Z_scope.

(* ===================================================================== *)
(** ** Python exceptions *)
(* ===================================================================== *)

Module Py.

(** The exception classes the program can meet.  [Custom name base] is a
    class defined by a library (for instance by scikit-learn or pandas)
    that derives from [base]. *)
Inductive exn_class : Type :=
| BaseException
| KeyboardInterrupt
| Exception
| ValueError
| AttributeError
| KeyError
| IndexError
| TypeError
| OSError
| FileNotFoundError
| Custom (name : string) (base : exn_class).

(** A raised exception: its class and [str(e)]. *)
Record exn : Type := Raise { exn_cls : exn_class; exn_str : string }.

(** [issubclass(c, ValueError)], what [except ValueError] tests. *)
Fixpoint is_ValueError (c : exn_class) : bool :=
  match c with
  | ValueError => true
  | Custom _ base => is_ValueError base
  | _ => false
  end.

(** [issubclass(c, Exception)], what [except Exception] tests. *)
Fixpoint is_Exception (c : exn_class) : bool :=
  match c with
  | BaseException | KeyboardInterrupt => false
  | Custom _ base => is_Exception base
  | _ => true
  end.

(** The result of evaluating an expression: raised or returned. *)
Definition result (A : Type) : Type := (exn + A)%type.

End Py.

(* ===================================================================== *)
(** ** Dates, times and [pandas.Timestamp] *)
(* ===================================================================== *)

Module Calendar.

(** [datetime.date], as [st.date_input] returns it. *)
Record date : Type := Date { d_year : Z; d_month : Z; d_day : Z }.

(** [datetime.time], as [st.time_input] returns it. *)
Record time : Type :=
  Time { t_hour : Z; t_minute : Z; t_second : Z; t_microsecond : Z }.

Definition is_leap (y : Z) : bool :=
  (y mod 4 =? 0) && (negb (y mod 100 =? 0) || (y mod 400 =? 0)).

Definition days_in_month (y m : Z) : Z :=
  match m with
  | 1 | 3 | 5 | 7 | 8 | 10 | 12 => 31
  | 4 | 6 | 9 | 11 => 30
  | 2 => if is_leap y then 29 else 28
  | _ => 0
  end.

(** The values a [datetime.date] can hold: the constructor of the class
    rejects every other triple. *)
Definition valid_date (d : date) : bool :=
  (1 <=? d_year d) && (d_year d <=? 9999) &&
  (1 <=? d_month d) && (d_month d <=? 12) &&
  (1 <=? d_day d) && (d_day d <=? days_in_month (d_year d) (d_month d)).

(** The values a [datetime.time] can hold. *)
Definition valid_time (t : time) : bool :=
  (0 <=? t_hour t) && (t_hour t <=? 23) &&
  (0 <=? t_minute t) && (t_minute t <=? 59) &&
  (0 <=? t_second t) && (t_second t <=? 59) &&
  (0 <=? t_microsecond t) && (t_microsecond t <=? 999999).

(** [pandas.Timestamp]: the calendar fields the program reads. *)
Record Timestamp : Type :=
  { year : Z; month : Z; day : Z; hour : Z; minute : Z;
    second : Z; microsecond : Z }.

(** [pd.Timestamp.combine(date, time)]. *)
Definition combine (d : date) (t : time) : Timestamp :=
  {| year := d_year d; month := d_month d; day := d_day d;
     hour := t_hour t; minute := t_minute t;
     second := t_second t; microsecond := t_microsecond t |}.

(** The month offsets of pandas' day-of-week routine (Sakamoto's
    method), indexed by [m - 1]. *)
Definition sakamoto_arr : list Z := [0; 3; 2; 5; 0; 3; 5; 1; 4; 6; 2; 4].

(** pandas' [ccalendar.dayofweek (y, m, d)]: 0 is Monday. *)
Definition dayofweek (y m d : Z) : Z :=
  let y := if m <? 3 then y - 1 else y in
  let day :=
    (y + y / 4 - y / 100 + y / 400
     + nth (Z.to_nat (m - 1)) sakamoto_arr 0 + d) mod 7 in
  (day + 6) mod 7.

(** [Timestamp.weekday()]. *)
Definition weekday (ts : Timestamp) : Z :=
  dayofweek (year ts) (month ts) (day ts).

(** The proleptic Gregorian day number of [datetime.date.toordinal]:
    day 1 is 0001-01-01, a Monday.  It is the yardstick [weekday] is
    measured against. *)
Definition days_before_year (y : Z) : Z :=
  let p := y - 1 in p * 365 + p / 4 - p / 100 + p / 400.

Definition days_before_month (y m : Z) : Z :=
  match m with
  | 1 => 0 | 2 => 31
  | 3 => 59 | 4 => 90 | 5 => 120 | 6 => 151 | 7 => 181 | 8 => 212
  | 9 => 243 | 10 => 273 | 11 => 304 | 12 => 334
  | _ => 0
  end + (if (2 <? m) && is_leap y then 1 else 0).

Definition toordinal (d : date) : Z :=
  days_before_year (d_year d) + days_before_month (d_year d) (d_month d)
  + d_day d.

(** 25 November 2024, a Monday: the day the week of the program's
    default date starts. *)
Definition a_monday : date := Date 2024 11 25.

(** The day after [d] (valid whenever [d] is, below 9999-12-31). *)
Definition tomorrow (d : date) : date :=
  if d_day d <? days_in_month (d_year d) (d_month d)
  then Date (d_year d) (d_month d) (d_day d + 1)
  else if d_month d <? 12
       then Date (d_year d) (d_month d + 1) 1
       else Date (d_year d + 1) 1 1.

End Calendar.

(* ===================================================================== *)
(** ** The one-row [pandas.DataFrame] *)
(* ===================================================================== *)

Module Frame.

(** A cell of the row: a [float64] or an [int64] column value. *)
Inductive cell : Type :=
| Float (x : float)
| Int (n : Z).

(** The frame: its columns from left to right, each with its label and
    the value of the single row. *)
Definition DataFrame : Type := list (string * cell).

(** [df.columns] *)
Definition columns (df : DataFrame) : list string := map fst df.

(** [col in df.columns] *)
Definition contains (df : DataFrame) (col : string) : bool :=
  existsb (String.eqb col) (columns df).

(** The columns of [df] labelled [key], from left to right. *)
Definition select (df : DataFrame) (key : string) : DataFrame :=
  filter (fun c => String.eqb key (fst c)) df.

(** [df[keys]] for a list of labels: every label must exist
    ([KeyError] otherwise); the result lists, for each key in turn,
    the columns carrying that label. *)
Definition getitem (df : DataFrame) (keys : list string)
  : Py.result DataFrame :=
  if forallb (contains df) keys
  then inr (flat_map (select df) keys)
  else inl (Py.Raise Py.KeyError "not in index").

(** The first cell labelled [key], if any. *)
Definition lookup (df : DataFrame) (key : string) : option cell :=
  match select df key with
  | [] => None
  | c :: _ => Some (snd c)
  end.

(** The row as a plain vector of cells. *)
Definition values (df : DataFrame) : list cell := map snd df.

End Frame.

(* ===================================================================== *)
(** ** The form and the two pure steps of [run] *)
(* ===================================================================== *)

Module Form.
Import Calendar Frame.

(** What the widgets of [inputs_form] return in one script run. *)
Record FormInputs : Type :=
  { voltage : float;
    global_intensity : float;
    sub_metering_1 : float;
    sub_metering_2 : float;
    sub_metering_3 : float;
    date : Calendar.date;
    time : Calendar.time;
    submit_button : bool }.

(** [st.slider(label, lo, hi, ...)] returns a value between its bounds. *)
Definition in_slider (lo hi x : float) : bool :=
  (PrimFloat.leb lo x && PrimFloat.leb x hi)%bool.

(** The values the widgets of the form can return. *)
Definition valid_form (ui : FormInputs) : bool :=
  in_slider 220.0 255.0 (voltage ui) &&
  in_slider 0.0 20.0 (global_intensity ui) &&
  in_slider 0.0 50.0 (sub_metering_1 ui) &&
  in_slider 0.0 50.0 (sub_metering_2 ui) &&
  in_slider 0.0 50.0 (sub_metering_3 ui) &&
  valid_date (date ui) && valid_time (time ui).

(** The values the widgets show before the user touches them. *)
Definition default_form (submit : bool) : FormInputs :=
  {| voltage := 240.0; global_intensity := 4.63;
     sub_metering_1 := 1.12; sub_metering_2 := 1.30;
     sub_metering_3 := 6.46;
     date := Date 2024 11 28; time := Time 12 0 0 0;
     submit_button := submit |}.

(** Lines 110-131 of [run]: the timestamp, its calendar fields and the
    DataFrame built from them. *)
Definition assemble (ui : FormInputs) : DataFrame :=
  let date_time := combine (date ui) (time ui) in
  let year := Calendar.year date_time in
  let month := Calendar.month date_time in
  let day := Calendar.day date_time in
  let hour := Calendar.hour date_time in
  let minute := Calendar.minute date_time in
  let weekday := Calendar.weekday date_time in
  [ ("Global_reactive_power", Float 0.0);
    ("Voltage", Float (voltage ui));
    ("Global_intensity", Float (global_intensity ui));
    ("Sub_metering_1", Float (sub_metering_1 ui));
    ("Sub_metering_2", Float (sub_metering_2 ui));
    ("Sub_metering_3", Float (sub_metering_3 ui));
    ("Year", Int year);
    ("Month", Int month);
    ("Day", Int day);
    ("Hour", Int hour);
    ("Minute", Int minute);
    ("Weekday", Int weekday) ].

(** The twelve labels of the assembled frame. *)
Definition feature_keys : list string :=
  [ "Global_reactive_power"; "Voltage"; "Global_intensity";
    "Sub_metering_1"; "Sub_metering_2"; "Sub_metering_3";
    "Year"; "Month"; "Day"; "Hour"; "Minute"; "Weekday" ].

(** Line 133 of [run]:
    [input_data[[col for col in feature_names if col in input_data.columns]]]. *)
Definition project (feature_names : list string) (input_data : DataFrame)
  : Py.result DataFrame :=
  getitem input_data
    (filter (fun col => contains input_data col) feature_names).

(** The frame the projection evaluates to (see [project_total]). *)
Definition projected (feature_names : list string) (input_data : DataFrame)
  : DataFrame :=
  flat_map (select input_data)
    (filter (fun col => contains input_data col) feature_names).

End Form.

(* ===================================================================== *)
(** ** The application object, its effects and its methods *)
(* ===================================================================== *)

Module App.
Import Frame Form.

(** A fitted model, as far as the program uses it: [predict] takes the
    frame and either raises or returns the array of predictions.  The
    artifacts are fixed functions of their argument. *)
Definition Model : Type := DataFrame -> Py.result (list float).

(** The attributes [load_resources] sets on [self]; an attribute that
    was never assigned is [None] and reading it raises
    [AttributeError]. *)
Record Self : Type :=
  { linear_model : option Model;
    ridge_model : option Model;
    feature_names : option (list string) }.

Definition fresh_self : Self :=
  {| linear_model := None; ridge_model := None; feature_names := None |}.

(** What [joblib.load] yields for each of the three file names. *)
Record Disk : Type :=
  { linear_model_pkl : Py.result Model;
    ridge_model_pkl : Py.result Model;
    feature_names_pkl : Py.result (list string) }.

(** A piece of an f-string: literal text, or a float printed with
    [:.2f]. *)
Inductive piece : Type :=
| Lit (s : string)
| Fixed2 (x : float).

Inductive model_name : Type := Linear | Ridge.

(** The calls the program makes to the outside, in program order. *)
Inductive event : Type :=
| set_page_config
| page_style (bg_color_code : string)
| joblib_load (file : string)
| sidebar_success (body : string)
| sidebar_error (body : string)
| sidebar_header (body : string)
| sidebar_markdown (body : string)
| st_markdown (body : string)
| st_subheader (body : string)
| st_pyplot_heatmap (data : DataFrame)
| predict_call (m : model_name) (X : DataFrame)
| st_plotly_pie (title : string) (labels : list string)
                (values : list float)
| st_write (body : list piece)
| st_error (body : string)
| st_info (body : string).

(** The state a method runs in: [self] and the calls made so far. *)
Record World : Type := { self : Self; trace : list event }.

(** Computations that read and write the world and may raise. *)
Definition M (A : Type) : Type := World -> Py.result A * World.

Definition ret {A} (a : A) : M A := fun w => (inr a, w).

Definition raise {A} (e : Py.exn) : M A := fun w => (inl e, w).

Definition bind {A B} (c : M A) (k : A -> M B) : M B :=
  fun w =>
    match c w with
    | (inr a, w') => k a w'
    | (inl e, w') => (inl e, w')
    end.

(** [try: body / except <class> as e: handler e], where [catches] tests
    the class of the raised exception. *)
Definition try_except {A} (body : M A) (catches : Py.exn_class -> bool)
    (handler : Py.exn -> M A) : M A :=
  fun w =>
    match body w with
    | (inl e, w') =>
        if catches (Py.exn_cls e) then handler e w' else (inl e, w')
    | r => r
    end.

Definition emit (ev : event) : M unit :=
  fun w => (inr tt, {| self := self w; trace := trace w ++ [ev] |}).

Definition lift {A} (r : Py.result A) : M A := fun w => (r, w).

Definition get_self : M Self := fun w => (inr (self w), w).

Definition set_self (s : Self) : M unit :=
  fun w => (inr tt, {| self := s; trace := trace w |}).

Declare Scope py_scope.
Delimit Scope py_scope with py.
Notation "x <- c ;; k" := (bind c (fun x => k))
  (at level 100, c at next level, right associativity) : py_scope.
Notation "c ;; k" := (bind c (fun _ => k))
  (at level 100, right associativity) : py_scope.
#[local] Open Scope py_scope.

(** [self.<name>] for an attribute held in field [field]. *)
Definition getattr {A} (field : Self -> option A) (name : string) : M A :=
  s <- get_self ;;
  match field s with
  | Some v => ret v
  | None =>
      raise (Py.Raise Py.AttributeError
               ("'EnergyConsumptionApp' object has no attribute '"
                  ++ name ++ "'"))
  end.

(** [joblib.load(file)] *)
Definition load {A} (file : string) (content : Py.result A) : M A :=
  emit (joblib_load file) ;; lift content.

(** [setup_page]: the colour chosen in the sidebar and the style sheet
    written with it. *)
Definition bg_color_code (bg_color : string) : string :=
  if String.eqb bg_color "Warm" then "#FFE1A8"
  else if String.eqb bg_color "Cool" then "#A8D5E2"
  else if String.eqb bg_color "Minimal" then "#F0F0F0"
  else if String.eqb bg_color "Bright" then "#FFB6C1"
  else "#FFFFFF".

Definition setup_page (bg_color : string) : M unit :=
  emit (page_style (bg_color_code bg_color)).

(** [load_resources] *)
Definition load_resources (disk : Disk) : M unit :=
  try_except
    (m <- load "linear_model.pkl" (linear_model_pkl disk) ;;
     s <- get_self ;;
     set_self {| linear_model := Some m;
                 ridge_model := ridge_model s;
                 feature_names := feature_names s |} ;;
     m <- load "ridge_model.pkl" (ridge_model_pkl disk) ;;
     s <- get_self ;;
     set_self {| linear_model := linear_model s;
                 ridge_model := Some m;
                 feature_names := feature_names s |} ;;
     names <- load "feature_names.pkl" (feature_names_pkl disk) ;;
     s <- get_self ;;
     set_self {| linear_model := linear_model s;
                 ridge_model := ridge_model s;
                 feature_names := Some names |} ;;
     emit (sidebar_success "Resources loaded successfully!"))
    Py.is_Exception
    (fun e => emit (sidebar_error ("Error loading resources: "
                                     ++ Py.exn_str e))).

(** [__init__] *)
Definition init (disk : Disk) (bg_color : string) : M unit :=
  emit set_page_config ;;
  setup_page bg_color ;;
  load_resources disk.

(** [model.predict(input_data)[0]] *)
Definition predict0 (which : model_name) (model : Model)
    (input_data : DataFrame) : M float :=
  emit (predict_call which input_data) ;;
  preds <- lift (model input_data) ;;
  match preds with
  | p :: _ => ret p
  | [] => raise (Py.Raise Py.IndexError
                   "index 0 is out of bounds for axis 0 with size 0")
  end.

(** The donut chart of one prediction against the ceiling of 10. *)
Definition donut (title label : string) (pred : float) : event :=
  st_plotly_pie title [label; "Others"] [pred; PrimFloat.sub 10 pred].

(** The body of the [try] of [run] (lines 143-172). *)
Definition predict_and_show (input_data : DataFrame) : M unit :=
  lm <- getattr linear_model "linear_model" ;;
  linear_pred <- predict0 Linear lm input_data ;;
  rm <- getattr ridge_model "ridge_model" ;;
  ridge_pred <- predict0 Ridge rm input_data ;;
  emit (donut "Linear Regression Prediction (kW)" "Linear Regression"
          linear_pred) ;;
  emit (donut "Ridge Regression Prediction (kW)" "Ridge Regression"
          ridge_pred) ;;
  emit (st_subheader "Prediction Results") ;;
  emit (st_write [Lit "Linear Regression Prediction: ";
                  Fixed2 linear_pred; Lit " kW"]) ;;
  emit (st_write [Lit "Ridge Regression Prediction: ";
                  Fixed2 ridge_pred; Lit " kW"]).

(** What [run] writes before it looks at the submit button (texts
    without their pictographs).  The widgets of [inputs_form] write
    nothing of their own: what they return is the [FormInputs] that
    [run] is given. *)
Definition page_head : list event :=
  [ st_markdown "<div class='header'>Energy Consumption Prediction</div>";
    sidebar_header "Customize Appearance";
    sidebar_markdown
      "Adjust the background color of the webpage to your liking!";
    sidebar_markdown "### Input Features" ].

(** What [run] writes after the prediction section (lines 177-182),
    the two items of the notice on one line. *)
Definition disclaimer : list event :=
  [ st_markdown "---";
    st_markdown "### Disclaimer";
    st_info "- This tool provides predictions based on historical data. - It is not intended for critical energy management." ].

Fixpoint emit_all (evs : list event) : M unit :=
  match evs with
  | [] => ret tt
  | ev :: rest => emit ev ;; emit_all rest
  end.

(** What seaborn raises for a frame without columns: the colour range
    of the heatmap is the minimum and the maximum of no value at all. *)
Definition empty_heatmap : Py.exn :=
  Py.Raise Py.ValueError
    "zero-size array to reduction operation fmin which has no identity".

(** [sns.heatmap(input_data.T, annot=True, ...)] and
    [st.pyplot(heatmap.figure)] (lines 137-138): on a frame without
    columns seaborn raises [ValueError] and nothing is drawn. *)
Definition heatmap (input_data : DataFrame) : M unit :=
  match input_data with
  | [] => raise empty_heatmap
  | _ :: _ => emit (st_pyplot_heatmap input_data)
  end.

(** The branch of [run] taken when the form was submitted
    (lines 110-182). *)
Definition on_submit (ui : FormInputs) : M unit :=
  let input_data := assemble ui in
  names <- getattr feature_names "feature_names" ;;
  input_data <- lift (project names input_data) ;;
  emit (st_subheader "Input Data Heatmap") ;;
  heatmap input_data ;;
  emit (st_markdown
          "<div class='prediction-card'><h3>Predictions</h3></div>") ;;
  try_except (predict_and_show input_data)
    Py.is_ValueError
    (fun e => emit (st_error ("Prediction error: " ++ Py.exn_str e))) ;;
  emit_all disclaimer.

(** [run] *)
Definition run (ui : FormInputs) : M unit :=
  emit_all page_head ;;
  if submit_button ui then on_submit ui else ret tt.

(** [main]: one execution of the script. *)
Definition main (disk : Disk) (bg_color : string) (ui : FormInputs)
  : M unit :=
  init disk bg_color ;;
  run ui.

(** The world a script run starts in. *)
Definition start : World := {| self := fresh_self; trace := [] |}.

(** The two predictions of a submission, as the [try] block computes
    them from the loaded artifacts. *)
Definition predictions (linear ridge : Model) (input_data : DataFrame)
  : Py.result (float * float) :=
  match linear input_data with
  | inl e => inl e
  | inr [] => inl (Py.Raise Py.IndexError
                     "index 0 is out of bounds for axis 0 with size 0")
  | inr (lp :: _) =>
      match ridge input_data with
      | inl e => inl e
      | inr [] => inl (Py.Raise Py.IndexError
                         "index 0 is out of bounds for axis 0 with size 0")
      | inr (rp :: _) => inr (lp, rp)
      end
  end.

(** What a submission writes between the page head and the [try]. *)
Definition before_prediction (input_data : DataFrame) : list event :=
  [ st_subheader "Input Data Heatmap";
    st_pyplot_heatmap input_data;
    st_markdown "<div class='prediction-card'><h3>Predictions</h3></div>" ].

(** What the handler of [run] writes for exception [e]. *)
Definition prediction_error (e : Py.exn) : event :=
  st_error ("Prediction error: " ++ Py.exn_str e).

(** What the [try] block writes when both predictions are there. *)
Definition prediction_report (input_data : DataFrame)
    (linear_pred ridge_pred : float) : list event :=
  [ predict_call Linear input_data;
    predict_call Ridge input_data;
    donut "Linear Regression Prediction (kW)" "Linear Regression"
      linear_pred;
    donut "Ridge Regression Prediction (kW)" "Ridge Regression"
      ridge_pred;
    st_subheader "Prediction Results";
    st_write [Lit "Linear Regression Prediction: ";
              Fixed2 linear_pred; Lit " kW"];
    st_write [Lit "Ridge Regression Prediction: ";
              Fixed2 ridge_pred; Lit " kW"] ].

Definition no_attribute (name : string) : Py.exn :=
  Py.Raise Py.AttributeError
    ("'EnergyConsumptionApp' object has no attribute '" ++ name ++ "'").

Definition empty_prediction : Py.exn :=
  Py.Raise Py.IndexError "index 0 is out of bounds for axis 0 with size 0".

(** The ways the [try] block of [run] can raise on frame [X] with the
    attributes [s]: the exception, and the calls to [predict] made
    before it. *)
Inductive prediction_raises (s : Self) (X : DataFrame)
  : Py.exn -> list event -> Prop :=
| linear_unset :
    linear_model s = None ->
    prediction_raises s X (no_attribute "linear_model") []
| linear_raises lm e :
    linear_model s = Some lm -> lm X = inl e ->
    prediction_raises s X e [predict_call Linear X]
| linear_empty lm :
    linear_model s = Some lm -> lm X = inr [] ->
    prediction_raises s X empty_prediction [predict_call Linear X]
| ridge_unset lm p ps :
    linear_model s = Some lm -> lm X = inr (p :: ps) ->
    ridge_model s = None ->
    prediction_raises s X (no_attribute "ridge_model")
      [predict_call Linear X]
| ridge_raises lm p ps rm e :
    linear_model s = Some lm -> lm X = inr (p :: ps) ->
    ridge_model s = Some rm -> rm X = inl e ->
    prediction_raises s X e [predict_call Linear X; predict_call Ridge X]
| ridge_empty lm p ps rm :
    linear_model s = Some lm -> lm X = inr (p :: ps) ->
    ridge_model s = Some rm -> rm X = inr [] ->
    prediction_raises s X empty_prediction
      [predict_call Linear X; predict_call Ridge X].

(** A load of the three artifacts that fails: the exception
    [load_resources] reports. *)
Inductive load_fails (disk : Disk) : Py.exn -> Prop :=
| linear_fails e :
    linear_model_pkl disk = inl e -> load_fails disk e
| ridge_fails m e :
    linear_model_pkl disk = inr m -> ridge_model_pkl disk = inl e ->
    load_fails disk e
| names_fail m m' e :
    linear_model_pkl disk = inr m -> ridge_model_pkl disk = inr m' ->
    feature_names_pkl disk = inl e ->
    load_fails disk e.

(** Tests on the calls of a trace, and how many calls pass one. *)
Definition is_predict_call (m : model_name) (ev : event) : bool :=
  match ev, m with
  | predict_call Linear _, Linear => true
  | predict_call Ridge _, Ridge => true
  | _, _ => false
  end.

Definition is_load (file : string) (ev : event) : bool :=
  match ev with
  | joblib_load f => String.eqb f file
  | _ => false
  end.

Definition is_pie (ev : event) : bool :=
  match ev with st_plotly_pie _ _ _ => true | _ => false end.

Definition is_write (ev : event) : bool :=
  match ev with st_write _ => true | _ => false end.

Definition is_error (ev : event) : bool :=
  match ev with st_error _ => true | _ => false end.

Definition is_heatmap (ev : event) : bool :=
  match ev with st_pyplot_heatmap _ => true | _ => false end.

Definition is_notice (ev : event) : bool :=
  match ev with
  | sidebar_success _ | sidebar_error _ => true
  | _ => false
  end.

Definition count (test : event -> bool) (evs : list event) : nat :=
  List.length (filter test evs).

(** The first thing the prediction section writes (line 141). *)
Definition prediction_card : event :=
  st_markdown "<div class='prediction-card'><h3>Predictions</h3></div>".

(** The ways [run] can end, with what it wrote: read off the branches
    of the method. *)
Inductive run_outcome (ui : FormInputs) (s : Self)
  : Py.result unit -> list event -> Prop :=
| not_submitted :
    submit_button ui = false ->
    run_outcome ui s (inr tt) page_head
| names_unset :
    submit_button ui = true ->
    feature_names s = None ->
    run_outcome ui s (inl (no_attribute "feature_names")) page_head
| heatmap_failed names :
    submit_button ui = true ->
    feature_names s = Some names ->
    projected names (assemble ui) = [] ->
    run_outcome ui s (inl empty_heatmap)
      (page_head ++ [st_subheader "Input Data Heatmap"])
| predictions_shown names lm rm lp lps rp rps :
    submit_button ui = true ->
    feature_names s = Some names ->
    projected names (assemble ui) <> [] ->
    linear_model s = Some lm ->
    lm (projected names (assemble ui)) = inr (lp :: lps) ->
    ridge_model s = Some rm ->
    rm (projected names (assemble ui)) = inr (rp :: rps) ->
    run_outcome ui s (inr tt)
      (page_head ++ before_prediction (projected names (assemble ui))
         ++ prediction_report (projected names (assemble ui)) lp rp
         ++ disclaimer)
| error_reported names e calls :
    submit_button ui = true ->
    feature_names s = Some names ->
    projected names (assemble ui) <> [] ->
    prediction_raises s (projected names (assemble ui)) e calls ->
    Py.is_ValueError (Py.exn_cls e) = true ->
    run_outcome ui s (inr tt)
      (page_head ++ before_prediction (projected names (assemble ui))
         ++ calls ++ [prediction_error e] ++ disclaimer)
| error_propagated names e calls :
    submit_button ui = true ->
    feature_names s = Some names ->
    projected names (assemble ui) <> [] ->
    prediction_raises s (projected names (assemble ui)) e calls ->
    Py.is_ValueError (Py.exn_cls e) = false ->
    run_outcome ui s (inl e)
      (page_head ++ before_prediction (projected names (assemble ui))
         ++ calls).

(** The files [load_resources] reads, given what each load yields: it
    stops at the first one that raises. *)
Definition files_read (disk : Disk) : list event :=
  joblib_load "linear_model.pkl" ::
  match linear_model_pkl disk with
  | inl _ => []
  | inr _ =>
      joblib_load "ridge_model.pkl" ::
      match ridge_model_pkl disk with
      | inl _ => []
      | inr _ => [joblib_load "feature_names.pkl"]
      end
  end.

(** Membership of a label in a list of labels. *)
Definition named (names : list string) (k : string) : bool :=
  existsb (String.eqb k) names.

End App.

(* ===================================================================== *)
(** ** Artifacts used in the examples *)
(* ===================================================================== *)

Module Scenario.
Import Frame Form App.

(** A model fitted on [n] features that answers [p]: like
    scikit-learn's estimators it raises [ValueError] on a frame of
    another width. *)
Definition fitted (n : nat) (p : float) : Model :=
  fun X =>
    if Nat.eqb (List.length X) n then inr [p]
    else inl (Py.Raise Py.ValueError
                "X has a different number of features than the model is expecting").

(** A model that raises [TypeError] on a frame of another width. *)
Definition picky (n : nat) (p : float) : Model :=
  fun X =>
    if Nat.eqb (List.length X) n then inr [p]
    else inl (Py.Raise Py.TypeError "unsupported input").

Definition not_found (file : string) : Py.exn :=
  Py.Raise Py.FileNotFoundError
    ("[Errno 2] No such file or directory: '" ++ file ++ "'").

(** The three artifacts in place. *)
Definition full_disk : Disk :=
  {| linear_model_pkl := inr (fitted 12 1.5);
     ridge_model_pkl := inr (fitted 12 1.25);
     feature_names_pkl := inr feature_keys |}.

(** [linear_model.pkl] is missing. *)
Definition disk_without_linear : Disk :=
  {| linear_model_pkl := inl (not_found "linear_model.pkl");
     ridge_model_pkl := inr (fitted 12 1.25);
     feature_names_pkl := inr feature_keys |}.

(** Attributes whose feature list names two labels only, with models
    fitted on twelve. *)
Definition narrow (linear ridge : Model) : Self :=
  {| linear_model := Some linear;
     ridge_model := Some ridge;
     feature_names := Some ["Voltage"; "Global_intensity"] |}.

(** [ridge_model.pkl] is missing. *)
Definition disk_without_ridge : Disk :=
  {| linear_model_pkl := inr (fitted 12 1.5);
     ridge_model_pkl := inl (not_found "ridge_model.pkl");
     feature_names_pkl := inr feature_keys |}.

(** The user interrupts the script while [ridge_model.pkl] is read. *)
Definition disk_interrupted : Disk :=
  {| linear_model_pkl := inr (fitted 12 1.5);
     ridge_model_pkl := inl (Py.Raise Py.KeyboardInterrupt EmptyString);
     feature_names_pkl := inr feature_keys |}.

(** The feature order a model fitted on three of the columns lists. *)
Definition three_names : list string := ["Hour"; "Voltage"; "Weekday"].

End Scenario.

(* ===================================================================== *)
(** ** Facts about frames *)
(* ===================================================================== *)

Import Calendar Frame Form.

Lemma contains_In (df : DataFrame) (k : string) :
  contains df k = true <-> In k (columns df).
Proof.
  unfold contains. rewrite existsb_exists. split.
  - intros [x [Hx Heq]]. apply String.eqb_eq in Heq. now subst.
  - intros H. exists k. split; [assumption | apply String.eqb_refl].
Qed.

Lemma select_app (a b : DataFrame) (k : string) :
  select (a ++ b) k = select a k ++ select b k.
Proof. unfold select. apply filter_app. Qed.

Lemma select_In (df : DataFrame) (k : string) (c : string * cell) :
  In c (select df k) <-> In c df /\ fst c = k.
Proof.
  unfold select. rewrite filter_In, String.eqb_eq.
  split; intros [H1 H2]; split; congruence.
Qed.

Lemma select_absent (df : DataFrame) (k : string) :
  ~ In k (columns df) -> select df k = [].
Proof.
  intros H. destruct (select df k) as [|c l] eqn:E; [reflexivity|].
  exfalso. apply H.
  assert (Hc : In c (select df k)) by (rewrite E; now left).
  apply select_In in Hc. destruct Hc as [Hc <-]. now apply in_map.
Qed.

Lemma select_select (df : DataFrame) (j k : string) :
  select (select df j) k = if String.eqb k j then select df j else [].
Proof.
  unfold select. induction df as [|[k0 v0] rest IH]; simpl.
  - now destruct (String.eqb k j).
  - destruct (String.eqb_spec j k0) as [Hj|Hj]; simpl.
    + subst k0. rewrite IH.
      destruct (String.eqb k j); reflexivity.
    + exact IH.
Qed.

(** The projection never asks the frame for a label it lacks. *)
Lemma project_total (names : list string) (df : DataFrame) :
  project names df
  = inr (flat_map (select df) (filter (contains df) names)).
Proof.
  unfold project, getitem.
  replace (forallb (contains df) (filter (fun col => contains df col) names))
    with true; [reflexivity|].
  symmetry. apply forallb_forall. intros x Hx.
  now apply filter_In in Hx.
Qed.

Lemma project_projected (names : list string) (df : DataFrame) :
  project names df = inr (projected names df).
Proof. apply project_total. Qed.

Lemma flat_select_In (df : DataFrame) (keys : list string)
    (c : string * cell) :
  In c (flat_map (select df) keys) <-> In c df /\ In (fst c) keys.
Proof.
  rewrite in_flat_map. split.
  - intros [k [Hk Hc]]. apply select_In in Hc. destruct Hc as [? <-].
    now split.
  - intros [Hc Hk]. exists (fst c). split; [assumption|].
    apply select_In. now split.
Qed.

(** In a frame built from a mapping every label names one column. *)
Lemma select_unique (df : DataFrame) (k : string) :
  NoDup (columns df) -> In k (columns df) ->
  exists v, select df k = [(k, v)].
Proof.
  induction df as [|[k0 v0] rest IH]; simpl.
  - intros _ [].
  - intros Hnd Hin. inversion Hnd as [|? ? Hnotin Hnd']; subst.
    unfold select; simpl.
    destruct (String.eqb_spec k k0) as [->|Hne].
    + exists v0. f_equal. now apply select_absent.
    + destruct Hin as [Heq|Hin]; [congruence|].
      now apply IH.
Qed.

Lemma columns_flat_select (df : DataFrame) (keys : list string) :
  NoDup (columns df) -> (forall k, In k keys -> In k (columns df)) ->
  columns (flat_map (select df) keys) = keys.
Proof.
  intros Hnd. induction keys as [|k keys IH]; intros Hall; simpl.
  - reflexivity.
  - unfold columns in *. rewrite map_app.
    destruct (select_unique df k Hnd (Hall k (or_introl eq_refl))) as [v ->].
    simpl. f_equal. apply IH. intros; apply Hall; now right.
Qed.

Lemma flat_map_ext_In {A B} (f g : A -> list B) (l : list A) :
  (forall x, In x l -> f x = g x) -> flat_map f l = flat_map g l.
Proof.
  induction l as [|a l IH]; simpl; intros H; [reflexivity|].
  rewrite (H a (or_introl eq_refl)), IH; [reflexivity|].
  intros; apply H; now right.
Qed.

(** Selecting label [k] from the concatenation of the selections of
    [keys]: nothing when [k] is not a key, the selection itself when [k]
    is listed once. *)
Lemma select_flat_absent (df : DataFrame) (keys : list string) (k : string) :
  ~ In k keys -> select (flat_map (select df) keys) k = [].
Proof.
  induction keys as [|j keys IH]; simpl; intros H; [reflexivity|].
  rewrite select_app, select_select, IH by tauto.
  destruct (String.eqb_spec k j) as [->|_]; [tauto|reflexivity].
Qed.

Lemma select_flat_once (df : DataFrame) (keys : list string) (k : string) :
  NoDup keys -> In k keys ->
  select (flat_map (select df) keys) k = select df k.
Proof.
  induction keys as [|j keys IH]; simpl; intros Hnd Hin; [destruct Hin|].
  inversion Hnd as [|? ? Hnotin Hnd']; subst.
  rewrite select_app, select_select.
  destruct (String.eqb_spec k j) as [->|Hne].
  - rewrite select_flat_absent by assumption. apply app_nil_r.
  - destruct Hin as [->|Hin]; [congruence|]. simpl. now apply IH.
Qed.

(* ===================================================================== *)
(** ** Facts about the calendar *)
(* ===================================================================== *)

Lemma valid_date_bounds (d : Calendar.date) :
  valid_date d = true ->
  1 <= d_year d <= 9999 /\ 1 <= d_month d <= 12 /\
  1 <= d_day d <= days_in_month (d_year d) (d_month d).
Proof.
  unfold valid_date. rewrite !andb_true_iff, !Z.leb_le. tauto.
Qed.

Lemma valid_time_bounds (t : Calendar.time) :
  valid_time t = true ->
  0 <= t_hour t <= 23 /\ 0 <= t_minute t <= 59 /\
  0 <= t_second t <= 59 /\ 0 <= t_microsecond t <= 999999.
Proof.
  unfold valid_time. rewrite !andb_true_iff, !Z.leb_le. tauto.
Qed.

(** Year [y] adds one leap day to the count exactly when it is leap. *)
Lemma leap_step (y : Z) :
  y / 4 - y / 100 + y / 400
  = (y - 1) / 4 - (y - 1) / 100 + (y - 1) / 400
    + (if is_leap y then 1 else 0).
Proof.
  unfold is_leap.
  destruct (Z.eqb_spec (y mod 4) 0), (Z.eqb_spec (y mod 100) 0),
    (Z.eqb_spec (y mod 400) 0); simpl;
    Z.div_mod_to_equations; lia.
Qed.

Ltac month_cases m :=
  let Hc := fresh "Hc" in
  assert (Hc : m = 1 \/ m = 2 \/ m = 3 \/ m = 4 \/ m = 5 \/ m = 6 \/
               m = 7 \/ m = 8 \/ m = 9 \/ m = 10 \/ m = 11 \/ m = 12)
    by lia;
  repeat (destruct Hc as [Hc | Hc]; [subst m |]); [.. | subst m].

(** pandas' day-of-week routine agrees with the day number counted from
    Monday 0001-01-01. *)
Lemma dayofweek_ordinal (y m d : Z) :
  1 <= m <= 12 ->
  dayofweek y m d = (toordinal (Date y m d) + 6) mod 7.
Proof.
  intros Hm.
  unfold dayofweek, toordinal, days_before_year, days_before_month; simpl.
  pose proof (leap_step y) as L.
  destruct (is_leap y); month_cases m; simpl;
    Z.div_mod_to_equations; lia.
Qed.

(** [toordinal] counts days: the next day has the next number. *)
Lemma toordinal_tomorrow (d : Calendar.date) :
  valid_date d = true -> toordinal (tomorrow d) = toordinal d + 1.
Proof.
  intros Hv. apply valid_date_bounds in Hv.
  destruct d as [y m dd]; simpl in Hv. destruct Hv as [Hy [Hm Hd]].
  unfold tomorrow, toordinal; simpl.
  destruct (Z.ltb_spec dd (days_in_month y m)) as [Hlt|Hge]; simpl; [lia|].
  assert (Hdd : dd = days_in_month y m) by lia. clear Hge Hd.
  destruct (Z.ltb_spec m 12) as [Hm12|Hm12]; simpl.
  - subst dd. unfold days_before_month, days_in_month.
    destruct (is_leap y); month_cases m; simpl; lia.
  - assert (m = 12) by lia. subst m dd.
    unfold days_before_year, days_before_month, days_in_month; simpl.
    pose proof (leap_step y) as L.
    replace (y + 1 - 1) with y by lia.
    destruct (is_leap y); simpl; lia.
Qed.

Lemma tomorrow_valid (d : Calendar.date) :
  valid_date d = true -> d_year d < 9999 -> valid_date (tomorrow d) = true.
Proof.
  intros Hv Hy. apply valid_date_bounds in Hv.
  destruct d as [y m dd]; simpl in *. destruct Hv as [Hy' [Hm Hd]].
  unfold tomorrow, valid_date; simpl.
  destruct (Z.ltb_spec dd (days_in_month y m)); simpl.
  - rewrite !andb_true_iff, !Z.leb_le. lia.
  - destruct (Z.ltb_spec m 12); simpl.
    + rewrite !andb_true_iff, !Z.leb_le.
      assert (1 <= days_in_month y (m + 1)); [|lia].
      unfold days_in_month. destruct (is_leap y); month_cases m; simpl; lia.
    + rewrite !andb_true_iff, !Z.leb_le. simpl. lia.
Qed.

(** The weekday moves on by one, modulo 7, from a day to the next. *)
Lemma dayofweek_tomorrow (d : Calendar.date) :
  valid_date d = true -> d_year d < 9999 ->
  dayofweek (d_year (tomorrow d)) (d_month (tomorrow d)) (d_day (tomorrow d))
  = (dayofweek (d_year d) (d_month d) (d_day d) + 1) mod 7.
Proof.
  intros Hv Hy.
  pose proof (tomorrow_valid d Hv Hy) as Hv'.
  pose proof (toordinal_tomorrow d Hv) as Hord.
  apply valid_date_bounds in Hv'. apply valid_date_bounds in Hv.
  rewrite !dayofweek_ordinal by tauto.
  assert (Heta : forall x, Date (d_year x) (d_month x) (d_day x) = x)
    by (intros []; reflexivity).
  rewrite !Heta, Hord.
  rewrite Z.add_mod_idemp_l by lia. f_equal. lia.
Qed.

(* ===================================================================== *)
(** ** The assembled record and its projection *)
(* ===================================================================== *)

Lemma assemble_columns (ui : FormInputs) :
  columns (assemble ui) = feature_keys.
Proof. reflexivity. Qed.

Lemma feature_keys_NoDup : NoDup feature_keys.
Proof.
  unfold feature_keys.
  repeat (constructor; [simpl; intuition discriminate|]).
  constructor.
Qed.

Lemma filter_length_lt {A} (f : A -> bool) (l : list A) (x : A) :
  In x l -> f x = false -> (List.length (filter f l) < List.length l)%nat.
Proof.
  induction l as [|a l IH]; simpl; [intros []|].
  intros [->|Hin] Hf.
  - rewrite Hf. pose proof (filter_length_le f l). lia.
  - specialize (IH Hin Hf). destruct (f a); simpl; lia.
Qed.

(** C1.  Projection keeps exactly the labels that the record and the
    feature order share, in the order of the feature order: labels of the
    record that the order does not name are dropped, with their cells;
    every kept label keeps its cell; a label of the order that the record
    lacks raises nothing and leaves a vector narrower than the order.
    On the order [Voltage, Global_intensity] and the record
    {Voltage: 240.0, Global_intensity: 4.63, Extra: 1.0} the projection
    is [240.0, 4.63]. *)
Theorem projection_keeps_shared_keys :
  (forall (names : list string) (record : DataFrame),
      NoDup (columns record) ->
      exists vector,
        project names record = inr vector
        /\ columns vector = filter (contains record) names
        /\ (forall k, In k (columns vector)
                      <-> In k names /\ In k (columns record))
        /\ (forall k, In k (columns vector) ->
                      lookup vector k = lookup record k)
        /\ (forall c, In c vector -> In c record)
        /\ (List.length vector <= List.length names)%nat
        /\ (forall k, In k names -> ~ In k (columns record) ->
                      (List.length vector < List.length names)%nat))
  /\ (let record := [ ("Voltage", Float 240.0);
                      ("Global_intensity", Float 4.63);
                      ("Extra", Float 1.0) ] in
      exists vector,
        project ["Voltage"; "Global_intensity"] record = inr vector
        /\ columns vector = ["Voltage"; "Global_intensity"]
        /\ values vector = [Float 240.0; Float 4.63]).
Proof.
  split.
  - intros names record Hnd.
    exists (flat_map (select record) (filter (contains record) names)).
    assert (Hcols : columns (flat_map (select record)
                               (filter (contains record) names))
                    = filter (contains record) names).
    { apply columns_flat_select; [assumption|].
      intros k Hk. apply filter_In in Hk. now apply contains_In. }
    assert (Hlen : List.length (flat_map (select record)
                             (filter (contains record) names))
                   = List.length (filter (contains record) names)).
    { rewrite <- Hcols at 2. unfold columns. now rewrite length_map. }
    split; [apply project_total|].
    split; [exact Hcols|].
    split.
    { intros k. rewrite Hcols, filter_In, contains_In. tauto. }
    split.
    { intros k Hk. rewrite Hcols in Hk. apply filter_In in Hk.
      destruct Hk as [Hk Hc]. apply contains_In in Hc.
      unfold lookup.
      destruct (select_unique record k Hnd Hc) as [v Hv].
      rewrite Hv.
      (* the selection of [k] from the vector is that of the record
         whenever [k] is listed; a repeated [k] repeats the same cell *)
      destruct (select (flat_map (select record)
                          (filter (contains record) names)) k)
        as [|c rest] eqn:E.
      - exfalso.
        assert (Hin : In (k, v) (select (flat_map (select record)
                         (filter (contains record) names)) k)).
        { apply select_In. split; [|reflexivity].
          apply flat_select_In. split.
          - assert (H : In (k, v) (select record k)) by (rewrite Hv; now left).
            now apply select_In in H.
          - simpl. apply filter_In. split; [assumption|].
            now apply contains_In. }
        rewrite E in Hin. destruct Hin.
      - assert (Hin : In c (select (flat_map (select record)
                         (filter (contains record) names)) k))
          by (rewrite E; now left).
        apply select_In in Hin. destruct Hin as [Hin Hfst].
        apply flat_select_In in Hin. destruct Hin as [Hin _].
        assert (H : In c (select record k)) by (apply select_In; now split).
        rewrite Hv in H. destruct H as [<-|[]]. reflexivity. }
    split.
    { intros c Hc. now apply flat_select_In in Hc. }
    split.
    { rewrite Hlen. apply filter_length_le. }
    { intros k Hk Habs. rewrite Hlen.
      apply filter_length_lt with (x := k); [assumption|].
      destruct (contains record k) eqn:E; [|reflexivity].
      apply contains_In in E. contradiction. }
  - simpl. eexists. repeat split; reflexivity.
Qed.

(** The general part of C1 at the assembled default record and an order
    that names a label the record lacks. *)
Lemma projection_keeps_shared_keys_witness :
  NoDup (columns (assemble (default_form true)))
  /\ exists vector,
      project ["Hour"; "Humidity"; "Voltage"] (assemble (default_form true))
      = inr vector
      /\ columns vector = ["Hour"; "Voltage"].
Proof.
  split.
  - exact feature_keys_NoDup.
  - destruct (proj1 projection_keeps_shared_keys
                ["Hour"; "Humidity"; "Voltage"]
                (assemble (default_form true)) feature_keys_NoDup)
      as [vector [Hp [Hc _]]].
    exists vector. split; [exact Hp | exact Hc].
Defined.

(** C2.  Whatever the sliders and the date and time pickers return, the
    assembled record has the twelve labels Global_reactive_power, Voltage,
    Global_intensity, Sub_metering_1, Sub_metering_2, Sub_metering_3,
    Year, Month, Day, Hour, Minute, Weekday, each once, and no other. *)
Theorem assembled_record_has_twelve_keys (ui : FormInputs) :
  valid_form ui = true ->
  columns (assemble ui)
  = [ "Global_reactive_power"; "Voltage"; "Global_intensity";
      "Sub_metering_1"; "Sub_metering_2"; "Sub_metering_3";
      "Year"; "Month"; "Day"; "Hour"; "Minute"; "Weekday" ]
  /\ NoDup (columns (assemble ui))
  /\ List.length (assemble ui) = 12%nat
  /\ (forall k, contains (assemble ui) k = true <-> In k feature_keys).
Proof.
  intros _. split; [reflexivity|].
  split; [exact feature_keys_NoDup|].
  split; [reflexivity|].
  intros k. apply contains_In.
Qed.

Lemma assembled_record_has_twelve_keys_witness :
  valid_form (default_form true) = true
  /\ columns (assemble (default_form true)) = feature_keys.
Proof.
  split.
  - reflexivity.
  - apply (assembled_record_has_twelve_keys (default_form true)).
    reflexivity.
Defined.

(** C4.  For voltage 240.0, global intensity 4.63, sub-meterings 1.12,
    1.30 and 6.46, the date 2024-11-28 and the time 12:00, the assembled
    record has Year 2024, Month 11, Day 28, Hour 12, Minute 0, Weekday 3
    and Global_reactive_power 0.0. *)
Theorem scenario_record :
  let record :=
    assemble {| voltage := 240.0; global_intensity := 4.63;
                sub_metering_1 := 1.12; sub_metering_2 := 1.30;
                sub_metering_3 := 6.46;
                date := Date 2024 11 28; time := Time 12 0 0 0;
                submit_button := true |} in
  lookup record "Year" = Some (Int 2024)
  /\ lookup record "Month" = Some (Int 11)
  /\ lookup record "Day" = Some (Int 28)
  /\ lookup record "Hour" = Some (Int 12)
  /\ lookup record "Minute" = Some (Int 0)
  /\ lookup record "Weekday" = Some (Int 3)
  /\ lookup record "Global_reactive_power" = Some (Float 0.0)
  /\ lookup record "Voltage" = Some (Float 240.0)
  /\ lookup record "Global_intensity" = Some (Float 4.63)
  /\ lookup record "Sub_metering_1" = Some (Float 1.12)
  /\ lookup record "Sub_metering_2" = Some (Float 1.30)
  /\ lookup record "Sub_metering_3" = Some (Float 6.46).
Proof. cbv zeta. repeat split; reflexivity. Qed.

(** C5.  For every date and time the pickers can return, the calendar
    cells of the assembled record are in range: Weekday lies in [0,6] and
    is the number of days since a Monday, modulo 7 (so 0 is Monday and 6
    is Sunday); Month lies in [1,12], Hour in [0,23] and Minute in
    [0,59]. *)
Theorem calendar_fields_in_range (ui : FormInputs) :
  valid_date (date ui) = true ->
  valid_time (time ui) = true ->
  exists weekday month hour minute,
    lookup (assemble ui) "Weekday" = Some (Int weekday)
    /\ lookup (assemble ui) "Month" = Some (Int month)
    /\ lookup (assemble ui) "Hour" = Some (Int hour)
    /\ lookup (assemble ui) "Minute" = Some (Int minute)
    /\ 0 <= weekday <= 6
    /\ weekday = (toordinal (date ui) - toordinal a_monday) mod 7
    /\ 1 <= month <= 12
    /\ 0 <= hour <= 23
    /\ 0 <= minute <= 59.
Proof.
  intros Hd Ht.
  apply valid_date_bounds in Hd. apply valid_time_bounds in Ht.
  destruct Hd as [Hy [Hm Hday]]. destruct Ht as [Hh [Hmi _]].
  exists (Calendar.weekday (combine (date ui) (time ui))),
    (d_month (date ui)), (t_hour (time ui)), (t_minute (time ui)).
  repeat (split; [reflexivity|]).
  assert (Hw : Calendar.weekday (combine (date ui) (time ui))
               = (toordinal (date ui) + 6) mod 7).
  { unfold Calendar.weekday, combine; simpl.
    rewrite dayofweek_ordinal by assumption. now destruct (date ui). }
  rewrite Hw.
  replace (toordinal a_monday) with 739215 by reflexivity.
  repeat split; try lia; try (apply Z.mod_pos_bound; lia);
    Z.div_mod_to_equations; lia.
Qed.

Lemma calendar_fields_in_range_witness :
  exists weekday month hour minute,
    lookup (assemble (default_form true)) "Weekday" = Some (Int weekday)
    /\ lookup (assemble (default_form true)) "Month" = Some (Int month)
    /\ lookup (assemble (default_form true)) "Hour" = Some (Int hour)
    /\ lookup (assemble (default_form true)) "Minute" = Some (Int minute)
    /\ 0 <= weekday <= 6
    /\ weekday = (toordinal (date (default_form true))
                  - toordinal a_monday) mod 7
    /\ 1 <= month <= 12
    /\ 0 <= hour <= 23
    /\ 0 <= minute <= 59.
Proof.
  apply (calendar_fields_in_range (default_form true)); reflexivity.
Defined.

(** C6.  The Global_reactive_power cell of the assembled record is the
    constant 0.0 for every input: the record has one such column, and no
    field of the form reaches it. *)
Theorem reactive_power_is_zero :
  (forall ui : FormInputs,
      lookup (assemble ui) "Global_reactive_power" = Some (Float 0.0)
      /\ select (assemble ui) "Global_reactive_power"
         = [("Global_reactive_power", Float 0.0)])
  /\ (forall ui ui' : FormInputs,
         lookup (assemble ui) "Global_reactive_power"
         = lookup (assemble ui') "Global_reactive_power").
Proof. split; [intros ui; split; reflexivity | reflexivity]. Qed.

Lemma columns_In (df : DataFrame) (k : string) :
  In k (columns df) <-> exists c, In c df /\ fst c = k.
Proof.
  unfold columns. rewrite in_map_iff. split; intros [c [H1 H2]]; eauto.
Qed.

(** A projected frame has a label exactly when the record has it and the
    feature order names it. *)
Lemma contains_projected (names : list string) (df : DataFrame) (k : string) :
  In k names ->
  contains (flat_map (select df) (filter (contains df) names)) k
  = contains df k.
Proof.
  intros Hk. apply eq_true_iff_eq.
  rewrite !contains_In, !columns_In. split.
  - intros [c [Hc <-]]. apply flat_select_In in Hc. exists c. tauto.
  - intros [c [Hc <-]]. exists c. split; [|reflexivity].
    apply flat_select_In. split; [assumption|].
    apply filter_In. split; [assumption|].
    apply contains_In, columns_In. eauto.
Qed.

(** How often a label shows after a projection: once for each time the
    feature order lists it, for each column of the record that has it. *)
Lemma select_flat_count (df : DataFrame) (keys : list string) (k : string) :
  List.length (select (flat_map (select df) keys) k)
  = (count_occ string_dec keys k * List.length (select df k))%nat.
Proof.
  induction keys as [|j keys IH]; simpl; [reflexivity|].
  rewrite select_app, length_app, select_select, IH.
  destruct (string_dec j k) as [->|Hne].
  - rewrite String.eqb_refl. lia.
  - destruct (String.eqb_spec k j) as [->|_]; [contradiction|]. simpl. lia.
Qed.

Lemma weighted_sum_le (c a : string -> nat) (l : list string) :
  (forall k, In k l -> (1 <= c k)%nat) ->
  (list_sum (map a l) <= list_sum (map (fun k => (c k * a k)%nat) l))%nat.
Proof.
  induction l as [|x l IH]; simpl; intros H; [lia|].
  specialize (IH (fun k Hk => H k (or_intror Hk))).
  pose proof (H x (or_introl eq_refl)). nia.
Qed.

Lemma weighted_sum_eq (c a : string -> nat) (l : list string) :
  (forall k, In k l -> (1 <= c k)%nat /\ (1 <= a k)%nat) ->
  list_sum (map (fun k => (c k * a k)%nat) l) = list_sum (map a l) ->
  forall k, In k l -> c k = 1%nat.
Proof.
  induction l as [|x l IH]; simpl; intros H Heq k Hk; [destruct Hk|].
  pose proof (weighted_sum_le c a l (fun k Hk => proj1 (H k (or_intror Hk))))
    as Hle.
  destruct (H x (or_introl eq_refl)) as [Hc Ha].
  destruct Hk as [<-|Hk].
  - nia.
  - apply IH; [intros; apply H; now right | nia | assumption].
Qed.

Lemma select_length_pos (df : DataFrame) (k : string) :
  In k (columns df) -> (1 <= List.length (select df k))%nat.
Proof.
  intros H. apply columns_In in H. destruct H as [c [Hc Hk]].
  assert (Hin : In c (select df k)) by (apply select_In; now split).
  destruct (select df k); [destruct Hin | simpl; lia].
Qed.

(** A second projection that changes nothing: no shared label was
    listed twice. *)
Lemma twice_same_NoDup (names : list string) (record : DataFrame) :
  project names (projected names record) = inr (projected names record) ->
  NoDup (filter (contains record) names).
Proof.
  intros H. rewrite project_total in H.
  rewrite (filter_ext_in
             (contains (projected names record)) (contains record) names)
    in H by (intros k Hk; now apply contains_projected).
  injection H as H. apply (f_equal (@List.length _)) in H.
  unfold projected in H. rewrite !length_flat_map in H.
  apply (NoDup_count_occ' string_dec). intros k Hk.
  apply (weighted_sum_eq (count_occ string_dec (filter (contains record) names))
           (fun k => List.length (select record k))
           (filter (contains record) names)); [| |assumption].
  - intros j Hj. split.
    + now apply (count_occ_In string_dec).
    + apply select_length_pos. apply filter_In in Hj. now apply contains_In.
  - etransitivity; [|exact H]. f_equal. apply map_ext. intros j.
    symmetry. apply select_flat_count.
Qed.

(** C3, as the code has it.  Projecting a second time through the same
    feature order returns the projected record unchanged (labels, order
    and cells) whenever the order lists no label of the record twice,
    and only then. *)
Theorem projection_idempotent (names : list string) (record : DataFrame) :
  exists once,
    project names record = inr once
    /\ (NoDup (filter (contains record) names)
        <-> project names once = inr once).
Proof.
  exists (projected names record).
  split; [apply project_projected|].
  split; [|apply twice_same_NoDup].
  intros Hnd. rewrite project_total.
  rewrite (filter_ext_in
             (contains (projected names record)) (contains record) names)
    by (intros k Hk; now apply contains_projected).
  apply f_equal, flat_map_ext_In. intros k Hk.
  now apply select_flat_once.
Qed.

Lemma projection_idempotent_witness :
  exists once,
    project ["Hour"; "Humidity"; "Voltage"] (assemble (default_form true))
    = inr once
    /\ project ["Hour"; "Humidity"; "Voltage"] once = inr once.
Proof.
  destruct (projection_idempotent ["Hour"; "Humidity"; "Voltage"]
              (assemble (default_form true))) as [once [Hp Hiff]].
  exists once. split; [exact Hp|]. apply Hiff.
  simpl. repeat (constructor; [simpl; intuition discriminate|]).
  constructor.
Defined.

(** C3, as the claim has it, fails: on a feature order that names Voltage
    twice the first projection has two Voltage columns and the second has
    four. *)
Lemma projection_twice_differs :
  ~ (forall (names : list string) (record once : DataFrame),
        NoDup (columns record) ->
        project names record = inr once ->
        project names once = inr once).
Proof.
  intros H.
  specialize (H ["Voltage"; "Voltage"] (assemble (default_form true))
                [("Voltage", Float 240.0); ("Voltage", Float 240.0)]
                feature_keys_NoDup eq_refl).
  vm_compute in H. discriminate H.
Qed.

(* ===================================================================== *)
(** ** Facts about the effects of [run] *)
(* ===================================================================== *)

Import App.
#[local] Open Scope py_scope.

(** Running a list of writes appends them. *)
Lemma emit_all_run (evs : list event) (w : World) :
  emit_all evs w = (inr tt, {| self := self w; trace := trace w ++ evs |}).
Proof.
  revert w. induction evs as [|ev evs IH]; intros w; simpl.
  - unfold ret. rewrite app_nil_r. now destruct w.
  - unfold bind, emit. rewrite IH. simpl. now rewrite <- app_assoc.
Qed.

(** How the steps of a method run. *)
Lemma bind_emit {B} (ev : event) (k : M B) (w : World) :
  (emit ev ;; k) w = k {| self := self w; trace := trace w ++ [ev] |}.
Proof. reflexivity. Qed.

Lemma bind_emit_all {B} (evs : list event) (k : M B) (w : World) :
  (emit_all evs ;; k) w = k {| self := self w; trace := trace w ++ evs |}.
Proof. unfold bind. now rewrite emit_all_run. Qed.

Lemma bind_lift_inr {A B} (a : A) (k : A -> M B) (w : World) :
  (x <- lift (inr a) ;; k x) w = k a w.
Proof. reflexivity. Qed.

Lemma bind_lift_inl {A B} (e : Py.exn) (k : A -> M B) (w : World) :
  (x <- lift (inl e) ;; k x) w = (inl e, w).
Proof. reflexivity. Qed.

Lemma bind_ret {A B} (a : A) (k : A -> M B) (w : World) :
  (x <- ret a ;; k x) w = k a w.
Proof. reflexivity. Qed.

Lemma bind_raise {A B} (e : Py.exn) (k : A -> M B) (w : World) :
  (x <- raise e ;; k x) w = (inl e, w).
Proof. reflexivity. Qed.

Lemma bind_getattr_some {A B} (field : Self -> option A) (name : string)
    (k : A -> M B) (w : World) (v : A) :
  field (self w) = Some v ->
  (x <- getattr field name ;; k x) w = k v w.
Proof.
  intros H. unfold getattr, bind, get_self. now rewrite H.
Qed.

Lemma bind_getattr_none {A B} (field : Self -> option A) (name : string)
    (k : A -> M B) (w : World) :
  field (self w) = None ->
  (x <- getattr field name ;; k x) w = (inl (no_attribute name), w).
Proof.
  intros H. unfold getattr, bind, get_self. now rewrite H.
Qed.

Lemma bind_predict0 {B} (which : model_name) (model : Model)
    (X : DataFrame) (k : float -> M B) (w : World) :
  (p <- predict0 which model X ;; k p) w
  = let w' := {| self := self w;
                 trace := trace w ++ [predict_call which X] |} in
    match model X with
    | inl e => (inl e, w')
    | inr [] => (inl empty_prediction, w')
    | inr (p :: _) => k p w'
    end.
Proof.
  unfold predict0, bind, emit, lift. simpl.
  destruct (model X) as [e|[|p ps]]; reflexivity.
Qed.

Lemma bind_heatmap {B} (input_data : DataFrame) (k : M B) (w : World) :
  input_data <> [] ->
  (heatmap input_data ;; k) w
  = k {| self := self w;
         trace := trace w ++ [st_pyplot_heatmap input_data] |}.
Proof.
  intros H. destruct input_data; [contradiction|reflexivity].
Qed.

(** A submission with the feature names loaded and a projected frame
    that has a column: what [run] has done when it enters the [try]. *)
Lemma run_to_prediction (ui : FormInputs) (s : Self) (evs : list event)
    (names : list string) :
  submit_button ui = true ->
  feature_names s = Some names ->
  projected names (assemble ui) <> [] ->
  run ui {| self := s; trace := evs |}
  = (try_except (predict_and_show (projected names (assemble ui)))
       Py.is_ValueError (fun e => emit (prediction_error e)) ;;
     emit_all disclaimer)
      {| self := s;
         trace := evs ++ page_head
                    ++ before_prediction (projected names (assemble ui)) |}.
Proof.
  intros Hsub Hnames Hcols.
  unfold run. rewrite bind_emit_all, Hsub. cbn [self trace].
  unfold on_submit.
  rewrite (bind_getattr_some _ _ _ _ names) by exact Hnames.
  rewrite project_projected, bind_lift_inr, bind_emit.
  rewrite bind_heatmap by exact Hcols. rewrite bind_emit.
  cbn [self trace]. unfold before_prediction, prediction_error.
  rewrite <- !app_assoc. reflexivity.
Qed.

(** A submission whose projected frame has no column: [run] raises at
    the heatmap, outside the [try], before any model is read or
    called. *)
Lemma run_heatmap_fails (ui : FormInputs) (s : Self) (evs : list event)
    (names : list string) :
  submit_button ui = true ->
  feature_names s = Some names ->
  projected names (assemble ui) = [] ->
  run ui {| self := s; trace := evs |}
  = (inl empty_heatmap,
     {| self := s;
        trace := evs ++ page_head ++ [st_subheader "Input Data Heatmap"] |}).
Proof.
  intros Hsub Hnames Hcols.
  unfold run. rewrite bind_emit_all, Hsub. cbn [self trace].
  unfold on_submit.
  rewrite (bind_getattr_some _ _ _ _ names) by exact Hnames.
  rewrite project_projected, bind_lift_inr, bind_emit.
  rewrite Hcols. cbn [self trace heatmap].
  rewrite bind_raise, <- app_assoc. reflexivity.
Qed.

(** A submission without the feature names: [run] raises at the
    projection, before the heatmap and outside the [try]. *)
Lemma run_without_names (ui : FormInputs) (s : Self) (evs : list event) :
  submit_button ui = true ->
  feature_names s = None ->
  run ui {| self := s; trace := evs |}
  = (inl (no_attribute "feature_names"),
     {| self := s; trace := evs ++ page_head |}).
Proof.
  intros Hsub Hnames.
  unfold run. rewrite bind_emit_all, Hsub. cbn [self trace].
  unfold on_submit.
  now rewrite bind_getattr_none by exact Hnames.
Qed.

(** A page shown without a submission: [run] writes the head only. *)
Lemma run_not_submitted (ui : FormInputs) (w : World) :
  submit_button ui = false ->
  run ui w = (inr tt, {| self := self w; trace := trace w ++ page_head |}).
Proof.
  intros Hsub. unfold run. now rewrite bind_emit_all, Hsub.
Qed.

(** The [try] block raises as [prediction_raises] says. *)
Lemma predict_and_show_raises (s : Self) (X : DataFrame) (e : Py.exn)
    (calls evs : list event) :
  prediction_raises s X e calls ->
  predict_and_show X {| self := s; trace := evs |}
  = (inl e, {| self := s; trace := evs ++ calls |}).
Proof.
  intros H. unfold predict_and_show.
  destruct H as [Hl | lm e Hl He | lm Hl He | lm p ps Hl Hp Hr
                | lm p ps rm e Hl Hp Hr He | lm p ps rm Hl Hp Hr He].
  - rewrite bind_getattr_none by exact Hl. now rewrite app_nil_r.
  - rewrite (bind_getattr_some _ _ _ _ lm) by exact Hl.
    now rewrite bind_predict0, He.
  - rewrite (bind_getattr_some _ _ _ _ lm) by exact Hl.
    now rewrite bind_predict0, He.
  - rewrite (bind_getattr_some _ _ _ _ lm) by exact Hl.
    rewrite bind_predict0, Hp. cbv zeta.
    now rewrite bind_getattr_none by exact Hr.
  - rewrite (bind_getattr_some _ _ _ _ lm) by exact Hl.
    rewrite bind_predict0, Hp. cbv zeta.
    rewrite (bind_getattr_some _ _ _ _ rm) by exact Hr.
    rewrite bind_predict0, He. cbn [self trace].
    now rewrite <- app_assoc.
  - rewrite (bind_getattr_some _ _ _ _ lm) by exact Hl.
    rewrite bind_predict0, Hp. cbv zeta.
    rewrite (bind_getattr_some _ _ _ _ rm) by exact Hr.
    rewrite bind_predict0, He. cbn [self trace].
    now rewrite <- app_assoc.
Qed.

(** The [try] block with both predictions at hand. *)
Lemma predict_and_show_returns (s : Self) (X : DataFrame) (lm rm : Model)
    (lp rp : float) (lps rps : list float) (evs : list event) :
  linear_model s = Some lm -> lm X = inr (lp :: lps) ->
  ridge_model s = Some rm -> rm X = inr (rp :: rps) ->
  predict_and_show X {| self := s; trace := evs |}
  = (inr tt, {| self := s; trace := evs ++ prediction_report X lp rp |}).
Proof.
  intros Hl Hp Hr Hq. unfold predict_and_show.
  rewrite (bind_getattr_some _ _ _ _ lm) by exact Hl.
  rewrite bind_predict0, Hp. cbv zeta.
  rewrite (bind_getattr_some _ _ _ _ rm) by exact Hr.
  rewrite bind_predict0, Hq. cbv zeta.
  rewrite !bind_emit. unfold emit, prediction_report. cbn [self trace].
  rewrite <- !app_assoc. reflexivity.
Qed.

(** What [__init__] leaves on [self], given what each load yields. *)
Lemma init_cases (disk : Disk) (bg_color : string) :
  exists r s notice,
    init disk bg_color start
    = (r, {| self := s;
             trace := [set_page_config; page_style (bg_color_code bg_color)]
                        ++ files_read disk ++ notice |})
    /\ linear_model s
       = match linear_model_pkl disk with
         | inr m => Some m
         | inl _ => None
         end
    /\ ridge_model s
       = match linear_model_pkl disk, ridge_model_pkl disk with
         | inr _, inr m => Some m
         | _, _ => None
         end
    /\ feature_names s
       = match linear_model_pkl disk, ridge_model_pkl disk,
               feature_names_pkl disk with
         | inr _, inr _, inr names => Some names
         | _, _, _ => None
         end
    /\ ((r = inr tt
         /\ notice = [sidebar_success "Resources loaded successfully!"]
         /\ forall e, ~ load_fails disk e)
        \/ (exists e,
               load_fails disk e
               /\ Py.is_Exception (Py.exn_cls e) = true
               /\ r = inr tt
               /\ notice = [sidebar_error ("Error loading resources: "
                                             ++ Py.exn_str e)])
        \/ (exists e,
               load_fails disk e
               /\ Py.is_Exception (Py.exn_cls e) = false
               /\ r = inl e
               /\ notice = [])).
Proof.
  unfold init, setup_page, load_resources, load, try_except, bind, emit,
    lift, get_self, set_self, start, files_read; simpl.
  destruct (linear_model_pkl disk) as [e|lm] eqn:Hl; simpl.
  { destruct (Py.is_Exception (Py.exn_cls e)) eqn:Hexc; simpl.
    - eexists (inr tt), _, [_]. repeat (split; [reflexivity|]).
      right. left. exists e. repeat split; auto using linear_fails.
    - exists (inl e), fresh_self, []. repeat (split; [reflexivity|]).
      right. right. exists e. repeat split; auto using linear_fails. }
  destruct (ridge_model_pkl disk) as [e|rm] eqn:Hr; simpl.
  { destruct (Py.is_Exception (Py.exn_cls e)) eqn:Hexc; simpl.
    - eexists (inr tt), _, [_]. repeat (split; [reflexivity|]).
      right. left. exists e. repeat split; eauto using ridge_fails.
    - eexists (inl e), _, []. repeat (split; [reflexivity|]).
      right. right. exists e. repeat split; eauto using ridge_fails. }
  destruct (feature_names_pkl disk) as [e|names] eqn:Hn; simpl.
  { destruct (Py.is_Exception (Py.exn_cls e)) eqn:Hexc; simpl.
    - eexists (inr tt), _, [_]. repeat (split; [reflexivity|]).
      right. left. exists e. repeat split; eauto using names_fail.
    - eexists (inl e), _, []. repeat (split; [reflexivity|]).
      right. right. exists e. repeat split; eauto using names_fail. }
  eexists (inr tt), _, [_]. repeat (split; [reflexivity|]).
  left. repeat split.
  intros e Hfail. destruct Hfail; congruence.
Qed.

(** A load fails with one exception only. *)
Lemma load_fails_unique (disk : Disk) (e e' : Py.exn) :
  load_fails disk e -> load_fails disk e' -> e = e'.
Proof. intros H H'. destruct H, H'; congruence. Qed.

(* ===================================================================== *)
(** ** Errors at prediction time and at load time *)
(* ===================================================================== *)

(** C7, as the code has it.  When a model's [predict] is called on the
    projected vector and raises a [ValueError] (the class scikit-learn
    raises for a frame of the wrong shape or type), [run] writes the
    message "Prediction error: ..." in place of the charts, calls no model
    a second time, writes the disclaimer and returns normally.  The models
    are called only on a vector that has a column: on one without, the
    heatmap raises first. *)
Theorem value_error_is_reported (ui : FormInputs) (s : Self)
    (evs : list event) (names : list string) (e : Py.exn)
    (calls : list event) :
  submit_button ui = true ->
  feature_names s = Some names ->
  projected names (assemble ui) <> [] ->
  prediction_raises s (projected names (assemble ui)) e calls ->
  Py.is_ValueError (Py.exn_cls e) = true ->
  let X := projected names (assemble ui) in
  project names (assemble ui) = inr X
  /\ run ui {| self := s; trace := evs |}
     = (inr tt,
        {| self := s;
           trace := evs ++ page_head ++ before_prediction X ++ calls
                      ++ [prediction_error e] ++ disclaimer |})
  /\ (calls = [predict_call Linear X]
      \/ calls = [predict_call Linear X; predict_call Ridge X]).
Proof.
  intros Hsub Hnames Hcols Hraise Hval X.
  split; [apply project_projected|].
  split.
  - rewrite (run_to_prediction ui s evs names Hsub Hnames Hcols).
    fold X. unfold bind at 1, try_except.
    rewrite (predict_and_show_raises s X e calls _ Hraise), Hval.
    unfold emit at 1. cbn [self trace].
    rewrite emit_all_run. cbn [self trace].
    rewrite <- !app_assoc. reflexivity.
  - fold X in Hraise. destruct Hraise; try discriminate Hval; tauto.
Qed.

Lemma value_error_is_reported_witness :
  let ui := default_form true in
  let s := Scenario.narrow (Scenario.fitted 12 1.5) (Scenario.fitted 12 1.25) in
  exists X e,
    project ["Voltage"; "Global_intensity"] (assemble ui) = inr X
    /\ run ui {| self := s; trace := [] |}
       = (inr tt,
          {| self := s;
             trace := [] ++ page_head ++ before_prediction X
                        ++ [predict_call Linear X]
                        ++ [prediction_error e] ++ disclaimer |}).
Proof.
  intros ui s.
  exists (projected ["Voltage"; "Global_intensity"] (assemble ui)).
  eexists.
  refine (let H := value_error_is_reported ui s []
                     ["Voltage"; "Global_intensity"] _
                     [predict_call Linear _] eq_refl eq_refl _ _ _ in
          conj (proj1 H) (proj1 (proj2 H))).
  - discriminate.
  - apply (linear_raises s _ (Scenario.fitted 12 1.5)); reflexivity.
  - reflexivity.
Defined.

(** C7, as the claim has it, fails: a model whose [predict] is called
    on the narrow vector and raises a [TypeError] ends the render there,
    with no message and no disclaimer. *)
Lemma type_error_is_not_reported :
  ~ (forall (ui : FormInputs) (s : Self) (names : list string)
            (lm : Model) (e : Py.exn),
        submit_button ui = true ->
        feature_names s = Some names ->
        projected names (assemble ui) <> [] ->
        linear_model s = Some lm ->
        lm (projected names (assemble ui)) = inl e ->
        exists w,
          run ui {| self := s; trace := [] |} = (inr tt, w)
          /\ In (prediction_error e) (trace w)).
Proof.
  intros H.
  destruct (H (default_form true)
              (Scenario.narrow (Scenario.picky 12 1.5)
                 (Scenario.fitted 12 1.25))
              ["Voltage"; "Global_intensity"]
              (Scenario.picky 12 1.5)
              (Py.Raise Py.TypeError "unsupported input")
              eq_refl eq_refl) as [w [Hrun _]];
    [discriminate | reflexivity | reflexivity |].
  vm_compute in Hrun. discriminate Hrun.
Qed.

(** C8 at a failing input.  With [linear_model.pkl] missing, the load
    reports the error in the sidebar and goes on; a later submission of
    the default form raises [AttributeError] at the projection, before
    anything of the submission is shown, while a render without a
    submission completes. *)
Theorem failed_load_then_submit_raises :
  let shown :=
    [ set_page_config; page_style "#FFE1A8";
      joblib_load "linear_model.pkl";
      sidebar_error
        "Error loading resources: [Errno 2] No such file or directory: 'linear_model.pkl'" ]
    ++ page_head in
  main Scenario.disk_without_linear "Warm" (default_form true) start
  = (inl (no_attribute "feature_names"),
     {| self := fresh_self; trace := shown |})
  /\ main Scenario.disk_without_linear "Warm" (default_form false) start
     = (inr tt, {| self := fresh_self; trace := shown |}).
Proof. split; reflexivity. Qed.

(** C9, as the code has it.  The handler of the prediction step catches
    [ValueError] only.  Any other exception raised in the [try] block (by
    a model's [predict], by indexing its result, or by reading a model
    attribute that is unset) leaves [run] uncaught, after the calls made
    so far and with nothing written after them; the block is entered
    only when the projected vector has a column.  After a load that
    failed, a submission raises [AttributeError] out of [run] too, but
    not in the prediction step: it is raised at the projection, for
    [feature_names], with nothing of the submission written. *)
Theorem other_errors_propagate :
  (forall (ui : FormInputs) (s : Self) (evs : list event)
          (names : list string) (e : Py.exn) (calls : list event),
      submit_button ui = true ->
      feature_names s = Some names ->
      projected names (assemble ui) <> [] ->
      prediction_raises s (projected names (assemble ui)) e calls ->
      Py.is_ValueError (Py.exn_cls e) = false ->
      run ui {| self := s; trace := evs |}
      = (inl e,
         {| self := s;
            trace := evs ++ page_head
                       ++ before_prediction (projected names (assemble ui))
                       ++ calls |}))
  /\ (forall (disk : Disk) (bg_color : string) (ui : FormInputs)
             (e : Py.exn),
         load_fails disk e ->
         Py.is_Exception (Py.exn_cls e) = true ->
         submit_button ui = true ->
         exists s,
           main disk bg_color ui start
           = (inl (no_attribute "feature_names"),
              {| self := s;
                 trace := [set_page_config;
                           page_style (bg_color_code bg_color)]
                            ++ files_read disk
                            ++ [sidebar_error ("Error loading resources: "
                                                 ++ Py.exn_str e)]
                            ++ page_head |})
           /\ feature_names s = None).
Proof.
  split.
  - intros ui s evs names e calls Hsub Hnames Hcols Hraise Hval.
    rewrite (run_to_prediction ui s evs names Hsub Hnames Hcols).
    unfold bind at 1, try_except.
    rewrite (predict_and_show_raises _ _ e calls _ Hraise), Hval.
    rewrite <- !app_assoc. reflexivity.
  - intros disk bg_color ui e Hfail Hexc Hsub.
    destruct (init_cases disk bg_color)
      as [r [s [notice [Hinit [_ [_ [Hn Hend]]]]]]].
    assert (Hnone : feature_names s = None).
    { rewrite Hn. destruct Hfail as [? E1|? ? E1 E2|? ? ? E1 E2 E3];
        rewrite E1; try rewrite E2; try rewrite E3; reflexivity. }
    exists s. split; [|exact Hnone].
    destruct Hend as [[_ [_ Hok]]|[[e' [Hf [_ [-> ->]]]]|[e' [Hf [Hexc' _]]]]].
    + now apply Hok in Hfail.
    + rewrite (load_fails_unique disk e e' Hfail Hf).
      unfold main, bind at 1. rewrite Hinit.
      rewrite (run_without_names ui s _ Hsub Hnone).
      rewrite <- !app_assoc. reflexivity.
    + rewrite (load_fails_unique disk e e' Hfail Hf) in Hexc. congruence.
Qed.

Lemma other_errors_propagate_witness :
  let ui := default_form true in
  let s := Scenario.narrow (Scenario.picky 12 1.5) (Scenario.fitted 12 1.25) in
  let X := projected ["Voltage"; "Global_intensity"] (assemble ui) in
  run ui {| self := s; trace := [] |}
  = (inl (Py.Raise Py.TypeError "unsupported input"),
     {| self := s;
        trace := [] ++ page_head ++ before_prediction X
                   ++ [predict_call Linear X] |}).
Proof.
  intros ui s X.
  apply (proj1 other_errors_propagate ui s []
           ["Voltage"; "Global_intensity"]
           (Py.Raise Py.TypeError "unsupported input")
           [predict_call Linear X]).
  - reflexivity.
  - reflexivity.
  - discriminate.
  - apply (linear_raises s _ (Scenario.picky 12 1.5)); reflexivity.
  - reflexivity.
Defined.

(** C9, as the claim has it, fails in its example: after a load that
    failed, the [AttributeError] of a submission is not raised during
    prediction.  With [linear_model.pkl] missing the prediction section
    is never entered and no model attribute is read. *)
Lemma failed_load_error_precedes_prediction :
  ~ (forall (disk : Disk) (bg_color : string) (ui : FormInputs)
            (e : Py.exn),
        load_fails disk e ->
        Py.is_Exception (Py.exn_cls e) = true ->
        submit_button ui = true ->
        exists a w,
          main disk bg_color ui start = (inl a, w)
          /\ Py.exn_cls a = Py.AttributeError
          /\ In prediction_card (trace w)).
Proof.
  intros H.
  destruct (H Scenario.disk_without_linear "Warm" (default_form true)
              (Scenario.not_found "linear_model.pkl")
              (linear_fails Scenario.disk_without_linear
                 (Scenario.not_found "linear_model.pkl") eq_refl)
              eq_refl eq_refl)
    as [a [w [Hmain [_ Hin]]]].
  vm_compute in Hmain. injection Hmain as _ <-.
  simpl in Hin. unfold prediction_card in Hin. intuition discriminate.
Qed.

(* ===================================================================== *)
(** ** A submission that shows its predictions *)
(* ===================================================================== *)

(** The predictions of a submission with all three artifacts loaded and
    a projected frame that has a column are the ones [run] shows. *)
Lemma run_shows_predictions (ui : FormInputs) (s : Self) (evs : list event)
    (names : list string) (lm rm : Model) (lp rp : float) :
  submit_button ui = true ->
  feature_names s = Some names ->
  projected names (assemble ui) <> [] ->
  linear_model s = Some lm ->
  ridge_model s = Some rm ->
  predictions lm rm (projected names (assemble ui)) = inr (lp, rp) ->
  run ui {| self := s; trace := evs |}
  = (inr tt,
     {| self := s;
        trace := evs ++ page_head
                   ++ before_prediction (projected names (assemble ui))
                   ++ prediction_report (projected names (assemble ui)) lp rp
                   ++ disclaimer |}).
Proof.
  intros Hsub Hnames Hcols Hl Hr Hp.
  rewrite (run_to_prediction ui s evs names Hsub Hnames Hcols).
  unfold predictions in Hp.
  destruct (lm (projected names (assemble ui))) as [?|[|lp' lps]] eqn:El;
    try discriminate Hp.
  destruct (rm (projected names (assemble ui))) as [?|[|rp' rps]] eqn:Er;
    try discriminate Hp.
  injection Hp as -> ->.
  unfold bind at 1, try_except.
  rewrite (predict_and_show_returns s _ lm rm lp rp lps rps _ Hl El Hr Er).
  rewrite emit_all_run. cbn [self trace].
  rewrite <- !app_assoc. reflexivity.
Qed.

(** A script run with the three artifacts in place and the default form
    submitted: both predictions are shown, each against the ceiling
    of 10. *)
Lemma main_with_full_disk :
  exists s X,
    main Scenario.full_disk "Cool" (default_form true) start
    = (inr tt,
       {| self := s;
          trace :=
            [ set_page_config; page_style "#A8D5E2";
              joblib_load "linear_model.pkl";
              joblib_load "ridge_model.pkl";
              joblib_load "feature_names.pkl";
              sidebar_success "Resources loaded successfully!" ]
              ++ page_head ++ before_prediction X
              ++ prediction_report X 1.5 1.25 ++ disclaimer |})
    /\ X = assemble (default_form true)
    /\ In (st_plotly_pie "Linear Regression Prediction (kW)"
             ["Linear Regression"; "Others"] [1.5%float; 8.5%float])
         (prediction_report X 1.5 1.25).
Proof.
  exists {| linear_model := Some (Scenario.fitted 12 1.5);
            ridge_model := Some (Scenario.fitted 12 1.25);
            feature_names := Some feature_keys |},
    (assemble (default_form true)).
  split; [reflexivity|]. split; [reflexivity|].
  right. right. left. reflexivity.
Qed.

(* ===================================================================== *)
(** ** Every way [run] and [__init__] can end *)
(* ===================================================================== *)

(** The [try] block either raises in one of the ways of
    [prediction_raises] or has both predictions. *)
Lemma predict_and_show_cases (s : Self) (X : DataFrame) :
  (exists e calls, prediction_raises s X e calls)
  \/ (exists lm rm lp lps rp rps,
         linear_model s = Some lm /\ lm X = inr (lp :: lps)
         /\ ridge_model s = Some rm /\ rm X = inr (rp :: rps)).
Proof.
  destruct (linear_model s) as [lm|] eqn:Hl;
    [|left; eauto using linear_unset].
  destruct (lm X) as [e|[|lp lps]] eqn:Hp;
    [left; eauto using linear_raises
    |left; eauto using linear_empty|].
  destruct (ridge_model s) as [rm|] eqn:Hr;
    [|left; eauto using ridge_unset].
  destruct (rm X) as [e|[|rp rps]] eqn:Hq;
    [left; eauto using ridge_raises
    |left; eauto using ridge_empty|].
  right. exists lm, rm, lp, lps, rp, rps. auto.
Qed.

(** [run] after the [try] block raised. *)
Lemma run_after_raise (ui : FormInputs) (s : Self) (evs : list event)
    (names : list string) (e : Py.exn) (calls : list event) :
  submit_button ui = true ->
  feature_names s = Some names ->
  projected names (assemble ui) <> [] ->
  prediction_raises s (projected names (assemble ui)) e calls ->
  run ui {| self := s; trace := evs |}
  = if Py.is_ValueError (Py.exn_cls e)
    then (inr tt,
          {| self := s;
             trace := evs
                        ++ (page_head
                              ++ before_prediction
                                   (projected names (assemble ui))
                              ++ calls ++ [prediction_error e]
                              ++ disclaimer) |})
    else (inl e,
          {| self := s;
             trace := evs
                        ++ (page_head
                              ++ before_prediction
                                   (projected names (assemble ui))
                              ++ calls) |}).
Proof.
  intros Hsub Hnames Hcols Hraise.
  rewrite (run_to_prediction ui s evs names Hsub Hnames Hcols).
  unfold bind at 1, try_except.
  rewrite (predict_and_show_raises _ _ e calls _ Hraise).
  destruct (Py.is_ValueError (Py.exn_cls e)).
  - unfold emit at 1. cbn [self trace]. rewrite emit_all_run.
    cbn [self trace]. rewrite <- !app_assoc. reflexivity.
  - rewrite <- !app_assoc. reflexivity.
Qed.

(** [run] ends in one of the six ways of [run_outcome], leaves [self]
    alone and appends what it writes. *)
Lemma run_cases (ui : FormInputs) (s : Self) (evs : list event) :
  exists r out,
    run ui {| self := s; trace := evs |}
    = (r, {| self := s; trace := evs ++ out |})
    /\ run_outcome ui s r out.
Proof.
  destruct (submit_button ui) eqn:Hsub.
  - destruct (feature_names s) as [names|] eqn:Hnames.
    + destruct (projected names (assemble ui)) as [|c cs] eqn:Hcols.
      { exists (inl empty_heatmap),
          (page_head ++ [st_subheader "Input Data Heatmap"]).
        split.
        - apply (run_heatmap_fails ui s evs names Hsub Hnames Hcols).
        - now apply heatmap_failed with (names := names). }
      assert (Hne : projected names (assemble ui) <> [])
        by (rewrite Hcols; discriminate).
      clear c cs Hcols.
      destruct (predict_and_show_cases s (projected names (assemble ui)))
        as [[e [calls Hraise]]
           |[lm [rm [lp [lps [rp [rps [Hl [Hp [Hr Hq]]]]]]]]]].
      * pose proof (run_after_raise ui s evs names e calls Hsub Hnames
                      Hne Hraise)
          as Hrun.
        destruct (Py.is_ValueError (Py.exn_cls e)) eqn:Hval.
        -- exists (inr tt),
             (page_head ++ before_prediction (projected names (assemble ui))
                ++ calls ++ [prediction_error e] ++ disclaimer).
           split; [exact Hrun | now apply error_reported].
        -- exists (inl e),
             (page_head ++ before_prediction (projected names (assemble ui))
                ++ calls).
           split; [exact Hrun | now apply error_propagated].
      * exists (inr tt),
          (page_head ++ before_prediction (projected names (assemble ui))
             ++ prediction_report (projected names (assemble ui)) lp rp
             ++ disclaimer).
        split.
        -- apply (run_shows_predictions ui s evs names lm rm lp rp
                    Hsub Hnames Hne Hl Hr).
           unfold predictions. now rewrite Hp, Hq.
        -- now apply predictions_shown with (lm := lm) (rm := rm)
                                            (lps := lps) (rps := rps).
    + exists (inl (no_attribute "feature_names")), page_head. split.
      * apply (run_without_names ui s evs Hsub Hnames).
      * now apply names_unset.
  - exists (inr tt), page_head. split.
    + apply (run_not_submitted ui {| self := s; trace := evs |} Hsub).
    + now apply not_submitted.
Qed.

(** [main] is [__init__] and then, unless that raised, [run]. *)
Lemma main_after_init (disk : Disk) (bg_color : string) (ui : FormInputs)
    (r : Py.result unit) (w : World) :
  init disk bg_color start = (r, w) ->
  main disk bg_color ui start
  = match r with
    | inr _ => run ui w
    | inl e => (inl e, w)
    end.
Proof.
  intros H. unfold main, bind. rewrite H. now destruct r.
Qed.

(** Counting over the parts of a trace. *)
Lemma count_app (test : event -> bool) (a b : list event) :
  count test (a ++ b) = (count test a + count test b)%nat.
Proof. unfold count. now rewrite filter_app, length_app. Qed.

Lemma count_zero (test : event -> bool) (evs : list event) :
  count test evs = 0%nat <-> forall ev, In ev evs -> test ev = false.
Proof.
  unfold count. induction evs as [|a evs IH]; simpl.
  - split; [intros _ ev [] | reflexivity].
  - destruct (test a) eqn:Ha; simpl.
    + split; [discriminate|]. intros H.
      specialize (H a (or_introl eq_refl)). congruence.
    + rewrite IH. split.
      * intros H ev [<-|Hin]; auto.
      * intros H ev Hin. apply H. now right.
Qed.

Ltac outcome_cases H :=
  let Hraise := fresh "Hraise" in
  destruct H as [ ? | ? ? | ? ? ? ? | ? ? ? ? ? ? ? ? ? ? ? ? ? ?
                | ? ? ? ? ? ? Hraise ? | ? ? ? ? ? ? Hraise ? ];
  [ | | | | destruct Hraise | destruct Hraise ].

(** [run] reads no file and writes no load notice. *)
Lemma run_outcome_quiet (ui : FormInputs) (s : Self) (r : Py.result unit)
    (out : list event) (file : string) :
  run_outcome ui s r out ->
  count (is_load file) out = 0%nat /\ count is_notice out = 0%nat.
Proof. intros H. outcome_cases H; split; reflexivity. Qed.

(** [__init__] shows no heatmap and calls no model. *)
Lemma init_trace_quiet (disk : Disk) (bg_color : string)
    (notice : list event) (ev : event) :
  (notice = [sidebar_success "Resources loaded successfully!"]
   \/ (exists body, notice = [sidebar_error body]) \/ notice = []) ->
  In ev ([set_page_config; page_style (bg_color_code bg_color)]
           ++ files_read disk ++ notice) ->
  is_heatmap ev = false /\ is_error ev = false
  /\ (forall m, is_predict_call m ev = false).
Proof.
  intros Hnotice Hin.
  assert (Hcases : ev = set_page_config
                   \/ ev = page_style (bg_color_code bg_color)
                   \/ (exists f, ev = joblib_load f)
                   \/ (exists b, ev = sidebar_success b)
                   \/ (exists b, ev = sidebar_error b)).
  { rewrite !in_app_iff in Hin. destruct Hin as [Hin|[Hin|Hin]].
    - simpl in Hin. intuition.
    - unfold files_read in Hin.
      destruct (linear_model_pkl disk), (ridge_model_pkl disk);
        simpl in Hin; intuition eauto.
    - destruct Hnotice as [->|[[b ->]| ->]]; simpl in Hin;
        intuition eauto. }
  destruct Hcases as [->|[->|[[f ->]|[[b ->]|[b ->]]]]];
    repeat split; try reflexivity; intros []; reflexivity.
Qed.

(* ===================================================================== *)
(** ** Loading the artifacts *)
(* ===================================================================== *)

(** X1.  After [__init__], [feature_names] is set only if all three
    artifacts were loaded: then [__init__] returned, both model
    attributes hold the loaded models, and the success notice is
    shown. *)
Theorem names_set_only_after_full_load (disk : Disk) (bg_color : string)
    (r : Py.result unit) (w : World) (names : list string) :
  init disk bg_color start = (r, w) ->
  feature_names (self w) = Some names ->
  r = inr tt
  /\ feature_names_pkl disk = inr names
  /\ (exists lm rm,
         linear_model_pkl disk = inr lm /\ ridge_model_pkl disk = inr rm
         /\ linear_model (self w) = Some lm
         /\ ridge_model (self w) = Some rm)
  /\ In (sidebar_success "Resources loaded successfully!") (trace w)
  /\ (forall body, ~ In (sidebar_error body) (trace w)).
Proof.
  intros Hinit Hnames.
  destruct (init_cases disk bg_color)
    as [r' [s [notice [Hrun [Hl [Hr [Hn Hend]]]]]]].
  rewrite Hinit in Hrun. injection Hrun as -> ->. cbn [self trace] in *.
  rewrite Hn in Hnames. unfold files_read.
  destruct (linear_model_pkl disk) as [?|lm] eqn:El; [discriminate|].
  destruct (ridge_model_pkl disk) as [?|rm] eqn:Er; [discriminate|].
  destruct (feature_names_pkl disk) as [?|ns] eqn:En; [discriminate|].
  injection Hnames as ->.
  assert (Hok : forall e, ~ load_fails disk e)
    by (intros e Hf; destruct Hf; congruence).
  destruct Hend as [[-> [-> _]]|[[e [Hf _]]|[e [Hf _]]]];
    [|now apply Hok in Hf|now apply Hok in Hf].
  repeat split; try reflexivity.
  - exists lm, rm. auto.
  - simpl. tauto.
  - intros body Hin. simpl in Hin. intuition discriminate.
Qed.

Lemma names_set_only_after_full_load_witness :
  exists w,
    init Scenario.full_disk "Warm" start = (inr tt, w)
    /\ feature_names_pkl Scenario.full_disk = inr feature_keys
    /\ In (sidebar_success "Resources loaded successfully!") (trace w).
Proof.
  eexists. split; [reflexivity|].
  destruct (names_set_only_after_full_load Scenario.full_disk "Warm"
              _ _ feature_keys eq_refl eq_refl) as [_ [Hn [_ [Hs _]]]].
  split; [exact Hn | exact Hs].
Defined.

(** X2.  A load that raises an [Exception] is reported in the sidebar
    and [__init__] returns; the files after the failing one are not
    read; the artifacts read before it stay assigned, the failing one
    and those after it are unset. *)
Theorem failed_load_is_partial (disk : Disk) (bg_color : string)
    (e : Py.exn) :
  load_fails disk e ->
  Py.is_Exception (Py.exn_cls e) = true ->
  exists s,
    init disk bg_color start
    = (inr tt,
       {| self := s;
          trace := [set_page_config; page_style (bg_color_code bg_color)]
                     ++ files_read disk
                     ++ [sidebar_error ("Error loading resources: "
                                          ++ Py.exn_str e)] |})
    /\ linear_model s
       = match linear_model_pkl disk with
         | inr m => Some m
         | inl _ => None
         end
    /\ ridge_model s
       = match linear_model_pkl disk, ridge_model_pkl disk with
         | inr _, inr m => Some m
         | _, _ => None
         end
    /\ feature_names s = None.
Proof.
  intros Hfail Hexc.
  destruct (init_cases disk bg_color)
    as [r [s [notice [Hrun [Hl [Hr [Hn Hend]]]]]]].
  exists s.
  destruct Hend as [[_ [_ Hok]]|[[e' [Hf [_ [-> ->]]]]|[e' [Hf [Hexc' _]]]]].
  - now apply Hok in Hfail.
  - rewrite (load_fails_unique disk e e' Hfail Hf).
    split; [exact Hrun|]. split; [exact Hl|]. split; [exact Hr|].
    rewrite Hn.
    destruct Hf as [? E1|? ? E1 E2|? ? ? E1 E2 E3]; rewrite E1;
      try rewrite E2; try rewrite E3; reflexivity.
  - rewrite (load_fails_unique disk e e' Hfail Hf) in Hexc. congruence.
Qed.

Lemma failed_load_is_partial_witness :
  exists s,
    init Scenario.disk_without_ridge "Warm" start
    = (inr tt,
       {| self := s;
          trace := [ set_page_config; page_style "#FFE1A8";
                     joblib_load "linear_model.pkl";
                     joblib_load "ridge_model.pkl";
                     sidebar_error
                       "Error loading resources: [Errno 2] No such file or directory: 'ridge_model.pkl'" ] |})
    /\ linear_model s = Some (Scenario.fitted 12 1.5)
    /\ ridge_model s = None
    /\ feature_names s = None.
Proof.
  destruct (failed_load_is_partial Scenario.disk_without_ridge "Warm"
              (Scenario.not_found "ridge_model.pkl"))
    as [s [Hrun [Hl [Hr Hn]]]].
  - apply (ridge_fails _ (Scenario.fitted 12 1.5)); reflexivity.
  - reflexivity.
  - exists s. repeat split; assumption.
Defined.

(** X3.  An exception of the load that is no [Exception] (a
    [KeyboardInterrupt], say) is not caught by [load_resources]: it
    leaves [main] before [run] starts, with no notice written. *)
Theorem load_interrupt_propagates (disk : Disk) (bg_color : string)
    (ui : FormInputs) (e : Py.exn) :
  load_fails disk e ->
  Py.is_Exception (Py.exn_cls e) = false ->
  exists s,
    main disk bg_color ui start
    = (inl e,
       {| self := s;
          trace := [set_page_config; page_style (bg_color_code bg_color)]
                     ++ files_read disk |})
    /\ feature_names s = None.
Proof.
  intros Hfail Hexc.
  destruct (init_cases disk bg_color)
    as [r [s [notice [Hrun [Hl [Hr [Hn Hend]]]]]]].
  exists s.
  destruct Hend as [[_ [_ Hok]]|[[e' [Hf [Hexc' _]]]|[e' [Hf [_ [-> ->]]]]]].
  - now apply Hok in Hfail.
  - rewrite (load_fails_unique disk e e' Hfail Hf) in Hexc. congruence.
  - rewrite (load_fails_unique disk e e' Hfail Hf).
    rewrite (main_after_init disk bg_color ui _ _ Hrun).
    rewrite app_nil_r. split; [reflexivity|].
    rewrite Hn. destruct Hf as [? E1|? ? E1 E2|? ? ? E1 E2 E3];
      rewrite E1; try rewrite E2; try rewrite E3; reflexivity.
Qed.

Lemma load_interrupt_propagates_witness :
  exists s,
    main Scenario.disk_interrupted "Warm" (default_form true) start
    = (inl (Py.Raise Py.KeyboardInterrupt EmptyString),
       {| self := s;
          trace := [ set_page_config; page_style "#FFE1A8";
                     joblib_load "linear_model.pkl";
                     joblib_load "ridge_model.pkl" ] |}).
Proof.
  destruct (load_interrupt_propagates Scenario.disk_interrupted "Warm"
              (default_form true)
              (Py.Raise Py.KeyboardInterrupt EmptyString))
    as [s [Hrun _]].
  - apply (ridge_fails _ (Scenario.fitted 12 1.5)); reflexivity.
  - reflexivity.
  - exists s. exact Hrun.
Defined.

(* ===================================================================== *)
(** ** A whole script run *)
(* ===================================================================== *)

(** How [main] ends: [__init__] raised, or [run] ended in one of its
    ways on the attributes [__init__] left. *)
Lemma main_cases (disk : Disk) (bg_color : string) (ui : FormInputs) :
  exists r s notice out,
    main disk bg_color ui start
    = (r, {| self := s;
             trace := ([set_page_config; page_style (bg_color_code bg_color)]
                         ++ files_read disk ++ notice) ++ out |})
    /\ (notice = [sidebar_success "Resources loaded successfully!"]
        \/ (exists body, notice = [sidebar_error body]) \/ notice = [])
    /\ (feature_names s <> None -> linear_model s <> None)
    /\ ((exists e, r = inl e /\ out = [] /\ load_fails disk e
                   /\ Py.is_Exception (Py.exn_cls e) = false)
        \/ run_outcome ui s r out).
Proof.
  destruct (init_cases disk bg_color)
    as [r0 [s [notice [Hrun [Hl [Hr [Hn Hend]]]]]]].
  assert (Hinv : feature_names s <> None -> linear_model s <> None).
  { rewrite Hn, Hl. destruct (linear_model_pkl disk); [tauto|discriminate]. }
  rewrite (main_after_init disk bg_color ui _ _ Hrun).
  destruct Hend as [[-> [-> _]]|[[e [Hf [Hexc [-> ->]]]]|[e [Hf [Hexc [-> ->]]]]]].
  - destruct (run_cases ui s
                ([set_page_config; page_style (bg_color_code bg_color)]
                   ++ files_read disk
                   ++ [sidebar_success "Resources loaded successfully!"]))
      as [r [out [H Ho]]].
    exists r, s, [sidebar_success "Resources loaded successfully!"], out.
    split; [exact H|]. split; [now left|]. split; [exact Hinv|now right].
  - destruct (run_cases ui s
                ([set_page_config; page_style (bg_color_code bg_color)]
                   ++ files_read disk
                   ++ [sidebar_error ("Error loading resources: "
                                        ++ Py.exn_str e)]))
      as [r [out [H Ho]]].
    exists r, s, [sidebar_error ("Error loading resources: "
                                   ++ Py.exn_str e)], out.
    split; [exact H|]. split; [right; left; eauto|].
    split; [exact Hinv|now right].
  - exists (inl e), s, [], [].
    split; [now rewrite !app_nil_r|]. split; [now right; right|].
    split; [exact Hinv|]. left. exists e. auto.
Qed.

Lemma files_read_count (disk : Disk) :
  count (is_load "linear_model.pkl") (files_read disk) = 1%nat
  /\ (count (is_load "ridge_model.pkl") (files_read disk) <= 1)%nat
  /\ (count (is_load "feature_names.pkl") (files_read disk) <= 1)%nat
  /\ count is_notice (files_read disk) = 0%nat.
Proof.
  unfold files_read.
  destruct (linear_model_pkl disk), (ridge_model_pkl disk);
    cbv; repeat split; lia.
Qed.

(** X4.  Every script run configures the page, writes the style sheet
    and reads [linear_model.pkl] again, in this order; it reads each of
    the three files at most once and shows at most one load notice,
    however it ends. *)
Theorem script_run_loads_once (disk : Disk) (bg_color : string)
    (ui : FormInputs) :
  exists r w rest,
    main disk bg_color ui start = (r, w)
    /\ trace w = set_page_config :: page_style (bg_color_code bg_color)
                   :: joblib_load "linear_model.pkl" :: rest
    /\ count (is_load "linear_model.pkl") (trace w) = 1%nat
    /\ (count (is_load "ridge_model.pkl") (trace w) <= 1)%nat
    /\ (count (is_load "feature_names.pkl") (trace w) <= 1)%nat
    /\ (count is_notice (trace w) <= 1)%nat.
Proof.
  destruct (main_cases disk bg_color ui)
    as [r [s [notice [out [Hmain [Hnotice [_ Hend]]]]]]].
  eexists r, _, _. split; [exact Hmain|]. cbn [trace].
  split; [unfold files_read; reflexivity|].
  assert (Hout : forall file,
             count (is_load file) out = 0%nat /\ count is_notice out = 0%nat).
  { intros file. destruct Hend as [[e [_ [-> _]]]|Ho]; [now split|].
    apply (run_outcome_quiet ui s r out file Ho). }
  assert (Hn : forall file, count (is_load file) notice = 0%nat
                            /\ (count is_notice notice <= 1)%nat).
  { intros file. destruct Hnotice as [->|[[b ->]| ->]]; cbv; split; lia. }
  destruct (files_read_count disk) as [F1 [F2 [F3 F4]]].
  rewrite !count_app.
  pose proof (Hout "linear_model.pkl") as [O1 O].
  pose proof (Hout "ridge_model.pkl") as [O2 _].
  pose proof (Hout "feature_names.pkl") as [O3 _].
  pose proof (Hn "linear_model.pkl") as [N1 N].
  pose proof (Hn "ridge_model.pkl") as [N2 _].
  pose proof (Hn "feature_names.pkl") as [N3 _].
  rewrite F1, O1, O2, O3, N1, N2, N3, O, F4.
  change (count (is_load "linear_model.pkl")
            [set_page_config; page_style (bg_color_code bg_color)])
    with 0%nat.
  change (count (is_load "ridge_model.pkl")
            [set_page_config; page_style (bg_color_code bg_color)])
    with 0%nat.
  change (count (is_load "feature_names.pkl")
            [set_page_config; page_style (bg_color_code bg_color)])
    with 0%nat.
  change (count is_notice
            [set_page_config; page_style (bg_color_code bg_color)])
    with 0%nat.
  repeat split; lia.
Qed.

(** X5.  A script run without a submission calls no model, shows no
    heatmap and no prediction error; it returns normally unless the load
    raised something that is no [Exception]. *)
Theorem page_view_calls_no_model (disk : Disk) (bg_color : string)
    (ui : FormInputs) :
  submit_button ui = false ->
  exists r w,
    main disk bg_color ui start = (r, w)
    /\ (forall ev, In ev (trace w) ->
                   is_heatmap ev = false /\ is_error ev = false
                   /\ forall m, is_predict_call m ev = false)
    /\ (r = inr tt
        \/ exists e, r = inl e /\ load_fails disk e
                     /\ Py.is_Exception (Py.exn_cls e) = false).
Proof.
  intros Hsub.
  destruct (main_cases disk bg_color ui)
    as [r [s [notice [out [Hmain [Hnotice [_ Hend]]]]]]].
  eexists r, _. split; [exact Hmain|]. cbn [trace].
  assert (Hout : out = [] \/ out = page_head).
  { destruct Hend as [[e [_ [-> _]]]|Ho]; [now left|].
    destruct Ho; try congruence. now right. }
  split.
  - intros ev Hin. apply in_app_or in Hin. destruct Hin as [Hin|Hin].
    + apply (init_trace_quiet disk bg_color notice ev Hnotice Hin).
    + destruct Hout as [->| ->]; [destruct Hin|].
      simpl in Hin.
      repeat (destruct Hin as [<-|Hin];
              [repeat split; try reflexivity; intros []; reflexivity|]).
      destruct Hin.
  - destruct Hend as [[e [-> [_ [Hf Hexc]]]]|Ho]; [right; eauto|].
    left. destruct Ho; congruence.
Qed.

Lemma page_view_calls_no_model_witness :
  exists w,
    main Scenario.disk_without_linear "Warm" (default_form false) start
    = (inr tt, w)
    /\ forall ev, In ev (trace w) ->
                  forall m, is_predict_call m ev = false.
Proof.
  destruct (page_view_calls_no_model Scenario.disk_without_linear "Warm"
              (default_form false) eq_refl) as [r [w [Hmain [Hq _]]]].
  exists w. split.
  - rewrite Hmain. vm_compute in Hmain. now injection Hmain as <- _.
  - intros ev Hin. now apply Hq.
Defined.

(** What the [try] block has called when it raises: the linear model
    first, unless that attribute is unset; nothing but models. *)
Lemma prediction_raises_calls (s : Self) (X : DataFrame) (e : Py.exn)
    (calls : list event) :
  prediction_raises s X e calls ->
  (linear_model s <> None -> In (predict_call Linear X) calls)
  /\ (forall ev, In ev calls ->
                 ev = predict_call Linear X \/ ev = predict_call Ridge X)
  /\ (count (is_predict_call Linear) calls <= 1)%nat
  /\ (count (is_predict_call Ridge) calls
      <= count (is_predict_call Linear) calls)%nat.
Proof.
  intros H. destruct H; repeat split;
    try (intros Hl; congruence);
    try (intros _; simpl; tauto);
    try (intros ev Hin; simpl in Hin; intuition (subst; auto));
    cbv; lia.
Qed.

(** X6.  In a script run, whenever the heatmap of a frame is shown the
    linear model is then asked for its prediction on that same frame:
    [__init__] never leaves the feature names set without the linear
    model. *)
Theorem heatmap_then_linear_called (disk : Disk) (bg_color : string)
    (ui : FormInputs) :
  exists r w,
    main disk bg_color ui start = (r, w)
    /\ forall X, In (st_pyplot_heatmap X) (trace w) ->
                 exists before after,
                   trace w = before ++ st_pyplot_heatmap X :: after
                   /\ In (predict_call Linear X) after.
Proof.
  destruct (main_cases disk bg_color ui)
    as [r [s [notice [out [Hmain [Hnotice [Hinv Hend]]]]]]].
  eexists r, _. split; [exact Hmain|]. cbn [trace].
  intros X Hin. apply in_app_or in Hin. destruct Hin as [Hin|Hin].
  { apply (init_trace_quiet disk bg_color notice _ Hnotice) in Hin.
    destruct Hin as [Hh _]. discriminate Hh. }
  destruct Hend as [[e [_ [-> _]]]|Ho]; [destruct Hin|].
  assert (Hhead : ~ In (st_pyplot_heatmap X) page_head)
    by (simpl; intuition discriminate).
  assert (Hsplit : forall names tail,
             out = page_head ++ before_prediction (projected names (assemble ui))
                     ++ tail ->
             (forall Y, ~ In (st_pyplot_heatmap Y) tail) ->
             In (predict_call Linear (projected names (assemble ui))) tail ->
             exists before after,
               ([set_page_config; page_style (bg_color_code bg_color)]
                  ++ files_read disk ++ notice) ++ out
               = before ++ st_pyplot_heatmap X :: after
               /\ In (predict_call Linear X) after).
  { intros names tail Hout Htail Hcall. rewrite Hout in Hin |- *.
    apply in_app_or in Hin. destruct Hin as [Hin|Hin]; [contradiction|].
    apply in_app_or in Hin. destruct Hin as [Hin|Hin];
      [|now apply Htail in Hin].
    simpl in Hin. destruct Hin as [Hin|[Hin|[Hin|[]]]]; try discriminate.
    injection Hin as <-.
    exists (([set_page_config; page_style (bg_color_code bg_color)]
               ++ files_read disk ++ notice)
              ++ page_head ++ [st_subheader "Input Data Heatmap"]),
      (st_markdown "<div class='prediction-card'><h3>Predictions</h3></div>"
         :: tail).
    split.
    - unfold before_prediction. rewrite <- !app_assoc. reflexivity.
    - now right. }
  destruct Ho as [ ? | ? ? | names ? ? ?
                 | names lm rm lp lps rp rps ? ? ? ? ? ? ?
                 | names e calls ? Hn ? Hraise ?
                 | names e calls ? Hn ? Hraise ? ].
  - contradiction.
  - contradiction.
  - apply in_app_or in Hin. destruct Hin as [Hin|[Hin|[]]];
      [contradiction|discriminate Hin].
  - apply (Hsplit names _ eq_refl).
    + intros Y HY. simpl in HY. intuition discriminate.
    + simpl. tauto.
  - destruct (prediction_raises_calls _ _ _ _ Hraise) as [Hl [Hc _]].
    apply (Hsplit names _ eq_refl).
    + intros Y HY. apply in_app_or in HY. destruct HY as [HY|HY].
      * apply Hc in HY. destruct HY; discriminate.
      * simpl in HY. intuition discriminate.
    + apply in_or_app. left. apply Hl, Hinv. congruence.
  - destruct (prediction_raises_calls _ _ _ _ Hraise) as [Hl [Hc _]].
    apply (Hsplit names calls eq_refl).
    + intros Y HY. apply Hc in HY. destruct HY; discriminate.
    + apply Hl, Hinv. congruence.
Qed.

(** X7.  However [run] ends, and whatever the attributes are, it asks
    the linear model at most once and the ridge model at most once, the
    ridge model only after the linear one, and only about the frame the
    heatmap shows; it leaves [self] as it was. *)
Theorem each_model_called_at_most_once (ui : FormInputs) (s : Self)
    (evs : list event) :
  exists r out,
    run ui {| self := s; trace := evs |}
    = (r, {| self := s; trace := evs ++ out |})
    /\ (count (is_predict_call Linear) out <= 1)%nat
    /\ (count (is_predict_call Ridge) out
        <= count (is_predict_call Linear) out)%nat
    /\ (count is_heatmap out <= 1)%nat
    /\ (forall m X, In (predict_call m X) out ->
                    In (st_pyplot_heatmap X) out).
Proof.
  destruct (run_cases ui s evs) as [r [out [Hrun Ho]]].
  exists r, out. split; [exact Hrun|].
  outcome_cases Ho;
    (split; [cbv; lia|]); (split; [cbv; lia|]); (split; [cbv; lia|]);
    intros m Y Hin; simpl in Hin |- *;
    repeat (destruct Hin as [Hin|Hin];
            [try discriminate Hin; injection Hin as _ <-; tauto|]);
    destruct Hin.
Qed.

(** X8.  [run] shows both donut charts and both text lines or none of
    them: when either prediction is missing nothing of the other is
    shown, and the charts never come with a prediction error. *)
Theorem charts_all_or_none (ui : FormInputs) (s : Self)
    (evs : list event) :
  exists r out,
    run ui {| self := s; trace := evs |}
    = (r, {| self := s; trace := evs ++ out |})
    /\ ((count is_pie out = 2%nat /\ count is_write out = 2%nat
         /\ count is_error out = 0%nat /\ r = inr tt
         /\ count (is_predict_call Linear) out = 1%nat
         /\ count (is_predict_call Ridge) out = 1%nat)
        \/ (count is_pie out = 0%nat /\ count is_write out = 0%nat
            /\ (count is_error out <= 1)%nat)).
Proof.
  destruct (run_cases ui s evs) as [r [out [Hrun Ho]]].
  exists r, out. split; [exact Hrun|].
  outcome_cases Ho;
    first [ right; cbv; repeat split; lia
          | left; cbv; repeat split; reflexivity ].
Qed.

(** X9.  On a submission [run] returns normally exactly when it ends
    with the disclaimer: when it raises, nothing of the disclaimer is
    written. *)
Theorem disclaimer_iff_returns (ui : FormInputs) (s : Self)
    (evs : list event) :
  submit_button ui = true ->
  exists r out,
    run ui {| self := s; trace := evs |}
    = (r, {| self := s; trace := evs ++ out |})
    /\ ((r = inr tt /\ exists shown, out = shown ++ disclaimer)
        \/ (exists e, r = inl e
                      /\ forall ev, In ev disclaimer -> ~ In ev out)).
Proof.
  intros Hsub.
  destruct (run_cases ui s evs) as [r [out [Hrun Ho]]].
  exists r, out. split; [exact Hrun|].
  destruct Ho as [ ? | ? ? | names ? ? ?
                 | names lm rm lp lps rp rps ? ? ? ? ? ? ?
                 | names e calls ? Hn ? Hraise ?
                 | names e calls ? Hn ? Hraise ? ].
  - congruence.
  - right. eexists. split; [reflexivity|].
    intros ev Hd Hin. simpl in Hd, Hin.
    intuition (subst; discriminate).
  - right. eexists. split; [reflexivity|].
    intros ev Hd Hin. simpl in Hd, Hin.
    intuition (subst; discriminate).
  - left. split; [reflexivity|].
    exists (page_head ++ before_prediction (projected names (assemble ui))
              ++ prediction_report (projected names (assemble ui)) lp rp).
    now rewrite <- !app_assoc.
  - left. split; [reflexivity|].
    exists (page_head ++ before_prediction (projected names (assemble ui))
              ++ calls ++ [prediction_error e]).
    now rewrite <- !app_assoc.
  - right. exists e. split; [reflexivity|].
    intros ev Hd Hin.
    destruct (prediction_raises_calls _ _ _ _ Hraise) as [_ [Hc _]].
    rewrite !in_app_iff in Hin. destruct Hin as [Hin|[Hin|Hin]].
    + simpl in Hd, Hin. intuition (subst; discriminate).
    + simpl in Hd, Hin. intuition (subst; discriminate).
    + apply Hc in Hin. simpl in Hd. intuition (subst; discriminate).
Qed.

Lemma disclaimer_iff_returns_witness :
  let s := Scenario.narrow (Scenario.picky 12 1.5) (Scenario.fitted 12 1.25) in
  exists r out,
    run (default_form true) {| self := s; trace := [] |}
    = (r, {| self := s; trace := [] ++ out |})
    /\ ((r = inr tt /\ exists shown, out = shown ++ disclaimer)
        \/ (exists e, r = inl e
                      /\ forall ev, In ev disclaimer -> ~ In ev out)).
Proof.
  intros s.
  apply (disclaimer_iff_returns (default_form true) s [] eq_refl).
Defined.

(* ===================================================================== *)
(** ** More on the projection *)
(* ===================================================================== *)

(** Selecting a label from a frame whose first column has another
    label. *)
Lemma select_cons_other (k j : string) (v : cell) (df : DataFrame) :
  j <> k -> select ((k, v) :: df) j = select df j.
Proof.
  intros Hne. unfold select; simpl.
  destruct (String.eqb_spec j k); [contradiction|reflexivity].
Qed.

(** A frame built from a mapping is the concatenation of its columns
    taken label by label. *)
Lemma flat_select_own_columns (df : DataFrame) :
  NoDup (columns df) -> flat_map (select df) (columns df) = df.
Proof.
  induction df as [|[k v] rest IH]; simpl; intros Hnd; [reflexivity|].
  inversion Hnd as [|? ? Hnotin Hnd']; subst.
  unfold select at 1; simpl. rewrite String.eqb_refl.
  change (filter (fun c => String.eqb k (fst c)) rest) with (select rest k).
  rewrite (select_absent rest k Hnotin). simpl. f_equal.
  etransitivity; [|exact (IH Hnd')].
  apply flat_map_ext_In. intros j Hj. apply select_cons_other.
  intros ->. contradiction.
Qed.

Lemma filter_all {A} (f : A -> bool) (l : list A) :
  (forall x, In x l -> f x = true) -> filter f l = l.
Proof.
  induction l as [|a l IH]; simpl; intros H; [reflexivity|].
  rewrite (H a (or_introl eq_refl)). f_equal. apply IH.
  intros; apply H; now right.
Qed.

Lemma filter_none {A} (f : A -> bool) (l : list A) :
  filter f l = [] <-> forall x, In x l -> f x = false.
Proof.
  induction l as [|a l IH]; simpl.
  - split; [intros _ x []|reflexivity].
  - destruct (f a) eqn:Ha.
    + split; [discriminate|]. intros H.
      specialize (H a (or_introl eq_refl)). congruence.
    + rewrite IH. split.
      * intros H x [<-|Hx]; auto.
      * intros H x Hx. apply H. now right.
Qed.

Lemma filter_twice {A} (f g : A -> bool) (l : list A) :
  filter f (filter g l) = filter (fun x => g x && f x) l.
Proof.
  induction l as [|a l IH]; simpl; [reflexivity|].
  destruct (g a); simpl; [destruct (f a)|]; now rewrite IH.
Qed.

Lemma named_In (names : list string) (k : string) :
  named names k = true <-> In k names.
Proof.
  unfold named. rewrite existsb_exists. split.
  - intros [x [Hx Heq]]. apply String.eqb_eq in Heq. now subst.
  - intros H. exists k. split; [assumption|apply String.eqb_refl].
Qed.

(** The labels of a projected frame, for any label asked. *)
Lemma contains_projected_named (names : list string) (df : DataFrame)
    (k : string) :
  contains (projected names df) k = contains df k && named names k.
Proof.
  apply eq_true_iff_eq.
  rewrite andb_true_iff, !contains_In, named_In, !columns_In. split.
  - intros [c [Hc <-]]. apply flat_select_In in Hc. destruct Hc as [Hc Hk].
    apply filter_In in Hk. split; [eauto|tauto].
  - intros [[c [Hc <-]] Hk]. exists c. split; [|reflexivity].
    apply flat_select_In. split; [assumption|].
    apply filter_In. split; [assumption|].
    apply contains_In, columns_In. eauto.
Qed.

(** X10.  When the feature order is a rearrangement of the labels of the
    record, projection only reorders: the vector has the labels in the
    order of the feature order, the same columns as the record and the
    same cell under every label; through the record's own column order
    it returns the record itself. *)
Theorem projection_by_permutation (names : list string)
    (record : DataFrame) :
  NoDup (columns record) ->
  Permutation names (columns record) ->
  exists vector,
    project names record = inr vector
    /\ columns vector = names
    /\ Permutation vector record
    /\ (forall k, lookup vector k = lookup record k)
    /\ (names = columns record -> vector = record).
Proof.
  intros Hnd Hperm.
  assert (Hnames : NoDup names)
    by (apply (Permutation_NoDup (Permutation_sym Hperm) Hnd)).
  assert (Hin : forall k, In k names <-> In k (columns record)).
  { intros k. split; apply Permutation_in;
      [assumption | now apply Permutation_sym]. }
  assert (Hkeep : filter (contains record) names = names).
  { apply filter_all. intros k Hk. now apply contains_In, Hin. }
  exists (flat_map (select record) names).
  assert (Hcols : columns (flat_map (select record) names) = names).
  { apply columns_flat_select; [assumption|]. intros k. apply Hin. }
  split; [rewrite project_total; now rewrite Hkeep|].
  split; [exact Hcols|].
  split.
  { apply NoDup_Permutation.
    - apply (NoDup_map_inv fst). fold (columns (flat_map (select record) names)).
      now rewrite Hcols.
    - now apply (NoDup_map_inv fst).
    - intros c. rewrite flat_select_In. split; [tauto|].
      intros Hc. split; [assumption|]. apply Hin. now apply in_map. }
  split.
  { intros k. unfold lookup.
    destruct (in_dec string_dec k names) as [Hk|Hk].
    - now rewrite select_flat_once.
    - rewrite select_flat_absent by assumption.
      rewrite select_absent; [reflexivity|]. now rewrite <- Hin. }
  intros ->. now apply flat_select_own_columns.
Qed.

Lemma projection_by_permutation_witness :
  exists vector,
    project ["Weekday"; "Minute"; "Hour"; "Day"; "Month"; "Year";
             "Sub_metering_3"; "Sub_metering_2"; "Sub_metering_1";
             "Global_intensity"; "Voltage"; "Global_reactive_power"]
      (assemble (default_form true)) = inr vector
    /\ Permutation vector (assemble (default_form true)).
Proof.
  destruct (projection_by_permutation
              ["Weekday"; "Minute"; "Hour"; "Day"; "Month"; "Year";
               "Sub_metering_3"; "Sub_metering_2"; "Sub_metering_1";
               "Global_intensity"; "Voltage"; "Global_reactive_power"]
              (assemble (default_form true)))
    as [vector [Hp [_ [Hperm _]]]].
  - exact feature_keys_NoDup.
  - change (columns (assemble (default_form true)))
      with (rev ["Weekday"; "Minute"; "Hour"; "Day"; "Month"; "Year";
                 "Sub_metering_3"; "Sub_metering_2"; "Sub_metering_1";
                 "Global_intensity"; "Voltage"; "Global_reactive_power"]).
    apply Permutation_rev.
  - exists vector. split; assumption.
Defined.

(** X11.  The projection is the empty frame exactly when the feature
    order names no label of the record (an empty order included): no
    error is raised for it. *)
Theorem projection_empty_iff_disjoint (names : list string)
    (record : DataFrame) :
  project names record = inr []
  <-> forall k, In k names -> ~ In k (columns record).
Proof.
  rewrite project_total. split.
  - intros H k Hk Hcol. injection H as H.
    apply columns_In in Hcol. destruct Hcol as [c [Hc Hfst]].
    assert (Hin : In c (flat_map (select record)
                          (filter (contains record) names))).
    { apply flat_select_In. split; [assumption|].
      apply filter_In. rewrite Hfst. split; [assumption|].
      apply contains_In, columns_In. eauto. }
    rewrite H in Hin. destruct Hin.
  - intros H. f_equal.
    replace (filter (contains record) names) with (@nil string);
      [reflexivity|].
    symmetry. apply filter_none. intros k Hk.
    destruct (contains record k) eqn:E; [|reflexivity].
    apply contains_In in E. now apply H in E.
Qed.

(** X12.  Projecting through one feature order and then through a second
    is projecting through the names of the second that the first lists
    too, when the first lists no label of the record twice. *)
Theorem projection_composes (names1 names2 : list string)
    (record : DataFrame) :
  NoDup (filter (contains record) names1) ->
  exists once,
    project names1 record = inr once
    /\ project names2 once
       = project (filter (named names1) names2) record.
Proof.
  intros Hnd. exists (projected names1 record).
  split; [apply project_projected|].
  rewrite !project_total. f_equal.
  rewrite filter_twice.
  rewrite (filter_ext (contains (projected names1 record))
             (fun k => named names1 k && contains record k))
    by (intros k; rewrite contains_projected_named; apply andb_comm).
  apply flat_map_ext_In. intros k Hk.
  apply filter_In in Hk. destruct Hk as [_ Hk].
  apply andb_true_iff in Hk. destruct Hk as [Hn Hc].
  apply select_flat_once; [assumption|].
  apply filter_In. split; [now apply named_In | assumption].
Qed.

Lemma projection_composes_witness :
  exists once,
    project ["Hour"; "Humidity"; "Voltage"] (assemble (default_form true))
    = inr once
    /\ project ["Voltage"; "Year"; "Hour"] once
       = project ["Voltage"; "Hour"] (assemble (default_form true)).
Proof.
  apply (projection_composes ["Hour"; "Humidity"; "Voltage"]
           ["Voltage"; "Year"; "Hour"] (assemble (default_form true))).
  simpl. repeat (constructor; [simpl; intuition discriminate|]).
  constructor.
Defined.

(* ===================================================================== *)
(** ** More on the assembled record *)
(* ===================================================================== *)

(** X13.  Two forms give the same record exactly when they agree on the
    five sliders, the date, and the hour and minute of the time: the
    seconds and microseconds of the time never reach the record. *)
Theorem assemble_determined_by (ui1 ui2 : FormInputs) :
  assemble ui1 = assemble ui2
  <-> voltage ui1 = voltage ui2
      /\ global_intensity ui1 = global_intensity ui2
      /\ sub_metering_1 ui1 = sub_metering_1 ui2
      /\ sub_metering_2 ui1 = sub_metering_2 ui2
      /\ sub_metering_3 ui1 = sub_metering_3 ui2
      /\ date ui1 = date ui2
      /\ t_hour (time ui1) = t_hour (time ui2)
      /\ t_minute (time ui1) = t_minute (time ui2).
Proof.
  unfold assemble, Calendar.weekday, combine; simpl. split.
  - intros H.
    injection H as Hv Hg H1 H2 H3 Hy Hm Hd Hh Hmi _.
    repeat (split; [assumption|]).
    split; [|split; assumption].
    destruct (date ui1), (date ui2); simpl in *. congruence.
  - intros [-> [-> [-> [-> [-> [-> [-> ->]]]]]]]. reflexivity.
Qed.

(** X14.  Submitting the following day moves the Weekday cell on by one,
    modulo 7, across the ends of months and years too. *)
Theorem weekday_next_day (ui ui' : FormInputs) :
  valid_date (date ui) = true ->
  d_year (date ui) < 9999 ->
  date ui' = tomorrow (date ui) ->
  exists w,
    lookup (assemble ui) "Weekday" = Some (Int w)
    /\ lookup (assemble ui') "Weekday" = Some (Int ((w + 1) mod 7))
    /\ valid_date (date ui') = true.
Proof.
  intros Hv Hy Hnext.
  exists (Calendar.weekday (combine (date ui) (time ui))).
  split; [reflexivity|]. split.
  - unfold lookup, assemble; simpl. do 2 f_equal.
    unfold Calendar.weekday, combine; simpl.
    rewrite Hnext. now apply dayofweek_tomorrow.
  - rewrite Hnext. now apply tomorrow_valid.
Qed.

Lemma weekday_next_day_witness :
  let eve :=
    {| voltage := 240.0; global_intensity := 4.63;
       sub_metering_1 := 1.12; sub_metering_2 := 1.30;
       sub_metering_3 := 6.46;
       date := Date 2024 12 31; time := Time 23 45 0 0;
       submit_button := true |} in
  let new_year :=
    {| voltage := 240.0; global_intensity := 4.63;
       sub_metering_1 := 1.12; sub_metering_2 := 1.30;
       sub_metering_3 := 6.46;
       date := Date 2025 1 1; time := Time 0 0 0 0;
       submit_button := true |} in
  exists w,
    lookup (assemble eve) "Weekday" = Some (Int w)
    /\ lookup (assemble new_year) "Weekday" = Some (Int ((w + 1) mod 7))
    /\ valid_date (date new_year) = true.
Proof.
  intros eve new_year.
  apply (weekday_next_day eve new_year); reflexivity.
Defined.

(* ===================================================================== *)
(** ** A submission whose projection is empty *)
(* ===================================================================== *)

Lemma projected_disjoint (names : list string) (record : DataFrame) :
  (forall k, In k names -> ~ In k (columns record)) ->
  projected names record = [].
Proof.
  intros H. unfold projected.
  replace (filter (fun col => contains record col) names) with (@nil string);
    [reflexivity|].
  symmetry. apply filter_none. intros k Hk.
  destruct (contains record k) eqn:E; [|reflexivity].
  apply contains_In in E. now apply H in E.
Qed.

(** X15.  When the loaded feature names share no label with the twelve
    of the record (an empty list included), a submission raises at the
    heatmap: a [ValueError], but outside the [try], so it leaves [run]
    uncaught, after the heatmap's heading, with no model called, no
    prediction error and no disclaimer written. *)
Theorem empty_projection_raises_at_heatmap (ui : FormInputs) (s : Self)
    (evs : list event) (names : list string) :
  submit_button ui = true ->
  feature_names s = Some names ->
  (forall k, In k names -> ~ In k feature_keys) ->
  project names (assemble ui) = inr []
  /\ run ui {| self := s; trace := evs |}
     = (inl empty_heatmap,
        {| self := s;
           trace := evs ++ page_head
                      ++ [st_subheader "Input Data Heatmap"] |})
  /\ Py.is_ValueError (Py.exn_cls empty_heatmap) = true.
Proof.
  intros Hsub Hnames Hdis.
  assert (Hempty : projected names (assemble ui) = [])
    by (apply projected_disjoint; exact Hdis).
  split; [now rewrite project_projected, Hempty|].
  split; [|reflexivity].
  apply (run_heatmap_fails ui s evs names Hsub Hnames Hempty).
Qed.

Lemma empty_projection_raises_at_heatmap_witness :
  let s := {| linear_model := Some (Scenario.fitted 1 1.5);
              ridge_model := Some (Scenario.fitted 1 1.25);
              feature_names := Some ["Humidity"] |} in
  run (default_form true) {| self := s; trace := [] |}
  = (inl empty_heatmap,
     {| self := s;
        trace := [] ++ page_head ++ [st_subheader "Input Data Heatmap"] |}).
Proof.
  intros s.
  apply (empty_projection_raises_at_heatmap (default_form true) s []
           ["Humidity"] eq_refl eq_refl).
  intros k [<-|[]] Hin. simpl in Hin. intuition discriminate.
Defined.
